(** * futurepedia_mcp.server: the content-extraction engine

    A shallow embedding of [src/futurepedia_mcp/server.py] and the
    properties its design document states about it.

    Python [str] values are modelled by [string]; one [ascii] stands for
    one character (code points 0..255), so that [String.length] is
    Python's [len].  Python dictionaries are [gmap]s keyed by strings.
    The third-party libraries the module calls (the HTML parser, the CSS
    selector engine, [urljoin], the PDF and DOCX readers, the XML parser
    and the HTTP client) are parameters of the development. *)

From Stdlib Require Import ZArith String Ascii List Bool Lia DecimalString.
From stdpp Require Import base option list gmap strings fin_maps.

Import ListNotations.
Set Warnings "-register-all".
Local Open Scope string_scope.
Local Open Scope Z_scope.
Local Open Scope list_scope.

(** ** Python strings *)

Module PyStr.

(** [str.isspace] on the characters below 256; this is also the class
    [\s] of [re] on [str] patterns. *)
Definition is_space (c : ascii) : bool :=
  let n := nat_of_ascii c in
  (((9 <=? n) && (n <=? 13)) || ((28 <=? n) && (n <=? 32))
   || (n =? 133) || (n =? 160))%nat.

Fixpoint lstrip (s : string) : string :=
  match s with
  | EmptyString => EmptyString
  | String c r => if is_space c then lstrip r else s
  end.

Fixpoint rstrip (s : string) : string :=
  match s with
  | EmptyString => EmptyString
  | String c r =>
      match rstrip r with
      | EmptyString => if is_space c then EmptyString else String c EmptyString
      | r' => String c r'
      end
  end.

(** [s.strip()] *)
Definition strip (s : string) : string := rstrip (lstrip s).

Definition lower_char (c : ascii) : ascii :=
  let n := nat_of_ascii c in
  if (((65 <=? n) && (n <=? 90))
      || ((192 <=? n) && (n <=? 222) && negb (n =? 215)))%nat
  then ascii_of_nat (n + 32) else c.

(** [s.lower()] *)
Fixpoint lower (s : string) : string :=
  match s with
  | EmptyString => EmptyString
  | String c r => String (lower_char c) (lower r)
  end.

(** [s.startswith(p)] *)
Definition startswith (p s : string) : bool := String.prefix p s.

(** [s.endswith(suf)]: some suffix of [s] is [suf]. *)
Fixpoint endswith (suf s : string) : bool :=
  String.eqb s suf
  || match s with
     | EmptyString => false
     | String _ r => endswith suf r
     end.

(** [sub in s] *)
Fixpoint contains (sub s : string) : bool :=
  String.prefix sub s
  || match s with
     | EmptyString => false
     | String _ r => contains sub r
     end.

(** [s.split(c)[0]] for a one-character separator. *)
Fixpoint split_head (c : ascii) (s : string) : string :=
  match s with
  | EmptyString => EmptyString
  | String d r => if Ascii.eqb d c then EmptyString else String d (split_head c r)
  end.

(** [sep.join(l)] *)
Definition join (sep : string) (l : list string) : string := String.concat sep l.

(** Truthiness of a string, and [a or b] on strings. *)
Definition truthy (s : string) : bool :=
  match s with EmptyString => false | _ => true end.

Definition or_else (a b : string) : string := if truthy a then a else b.

(** [re.sub(r"\s+", " ", s)]: every maximal run of white space becomes
    one space; [in_run] tells that the previous character was white. *)
Fixpoint sub_spaces (in_run : bool) (s : string) : string :=
  match s with
  | EmptyString => EmptyString
  | String c r =>
      if is_space c
      then (if in_run then sub_spaces true r else String " " (sub_spaces true r))
      else String c (sub_spaces false r)
  end.

(** [len(s)] *)
Definition len (s : string) : Z := Z.of_nat (String.length s).

End PyStr.

(** ** Exceptions and results *)

(** An exception object: its class and [str(exc)].  Every value stands
    for an instance of a subclass of [Exception]. *)
Record exn := Exception { exn_class : string; exn_str : string }.

Inductive result (A : Type) : Type :=
| Returns (a : A)
| Raises (e : exn).
Arguments Returns {A} a.
Arguments Raises {A} e.

Definition rbind {A B : Type} (m : result A) (k : A -> result B) : result B :=
  match m with
  | Returns a => k a
  | Raises e => Raises e
  end.

(** With these instances, [x ← m; k] runs [m] and passes its value on,
    and an exception raised by [m] propagates. *)
#[global] Instance result_ret : MRet result := fun A a => Returns a.
#[global] Instance result_bind : MBind result := fun A B k m => rbind m k.

(** ** Python values held in the returned dictionaries *)

Inductive value : Type :=
| VNone
| VStr (s : string)
| VInt (z : Z)
| VList (l : list value)
| VDict (d : gmap string value).

Definition strs (l : list string) : value := VList (map VStr l).

(** A dictionary display [{k1: v1, ...}]: later keys overwrite earlier ones. *)
Definition dict (items : list (string * value)) : gmap string value :=
  fold_left (fun d kv => <[kv.1 := kv.2]> d) items ∅.

(** ** The parsed HTML document (BeautifulSoup's tree) *)

(** Classes of the string nodes of the tree. *)
Inductive string_class : Type :=
| NavigableString | CData | Comment | Doctype | Script | Stylesheet
| TemplateString | RubyTextString | RubyParenthesisString.

Definition string_class_eqb (a b : string_class) : bool :=
  match a, b with
  | NavigableString, NavigableString | CData, CData | Comment, Comment
  | Doctype, Doctype | Script, Script | Stylesheet, Stylesheet
  | TemplateString, TemplateString | RubyTextString, RubyTextString
  | RubyParenthesisString, RubyParenthesisString => true
  | _, _ => false
  end.

Inductive node : Type :=
| Str (cls : string_class) (s : string)
| Tag (name : string) (attrs : gmap string string) (contents : list node).

(** The root object of a parsed document is a tag named [[document]]. *)
Definition document (contents : list node) : node := Tag "[document]" ∅ contents.

Definition is_tag (n : node) : bool :=
  match n with Tag _ _ _ => true | Str _ _ => false end.

(** [getattr(n, "name", None)] *)
Definition name_of (n : node) : option string :=
  match n with Tag nm _ _ => Some nm | Str _ _ => None end.

Definition name_in (names : list string) (n : node) : bool :=
  match name_of n with
  | Some nm => existsb (String.eqb nm) names
  | None => false
  end.

(** The string classes [get_text] keeps below a tag of a given name
    (the tree builder's [string_containers]). *)
Definition interesting_string_types (name : string) : list string_class :=
  if String.eqb name "script" then [Script]
  else if String.eqb name "style" then [Stylesheet]
  else if String.eqb name "template" then [TemplateString]
  else if String.eqb name "rt" then [RubyTextString]
  else if String.eqb name "rp" then [RubyParenthesisString]
  else [NavigableString; CData].

(** [n.descendants]: every node below [n], in document order. *)
Fixpoint descendants (n : node) : list node :=
  match n with
  | Str _ _ => []
  | Tag _ _ cs =>
      (fix go (l : list node) : list node :=
         match l with
         | [] => []
         | c :: r => c :: descendants c ++ go r
         end) cs
  end.

(** The strings [_all_strings(strip=True)] yields below a tag: those of
    an interesting class, stripped, the empty ones dropped. *)
Definition stripped_strings (types : list string_class) (ns : list node) : list string :=
  List.filter PyStr.truthy
    (flat_map (fun d => match d with
                        | Str cls s =>
                            if existsb (string_class_eqb cls) types
                            then [PyStr.strip s] else []
                        | Tag _ _ _ => []
                        end) ns).

(** [el.get_text(" ", strip=True)] *)
Definition get_text (el : node) : string :=
  match el with
  | Tag nm _ _ =>
      PyStr.join " " (stripped_strings (interesting_string_types nm) (descendants el))
  | Str cls s =>
      if existsb (string_class_eqb cls) [NavigableString; CData]
      then PyStr.strip s else EmptyString
  end.

(** Every tag below [n] in document order, each with the tags that
    follow it under the same parent ([find_next_siblings()]). *)
Fixpoint tags_with_siblings (n : node) : list (node * list node) :=
  match n with
  | Str _ _ => []
  | Tag _ _ cs =>
      (fix go (l : list node) : list (node * list node) :=
         match l with
         | [] => []
         | c :: r =>
             (if is_tag c then [(c, List.filter is_tag r)] else [])
               ++ tags_with_siblings c ++ go r
         end) cs
  end.

(** [soup.find_all(names)] *)
Definition find_all (names : list string) (soup : node) : list node :=
  List.map fst (List.filter (fun p => name_in names (fst p)) (tags_with_siblings soup)).

(** [soup.find(name)] *)
Definition find (name : string) (soup : node) : option node :=
  head (find_all [name] soup).

Definition attrs_of (n : node) : gmap string string :=
  match n with Tag _ a _ => a | Str _ _ => ∅ end.

(** [soup.find("meta", attrs={by: key})] *)
Definition find_meta (soup : node) (by_ key : string) : option node :=
  head (List.filter (fun el => match attrs_of el !! by_ with
                               | Some v => String.eqb v key
                               | None => false
                               end)
          (find_all ["meta"] soup)).

(** The tree after [tag.decompose()] on every tag named in [names]. *)
Fixpoint decompose (names : list string) (n : node) : node :=
  match n with
  | Str _ _ => n
  | Tag nm a cs =>
      Tag nm a
        ((fix go (l : list node) : list node :=
            match l with
            | [] => []
            | c :: r => if name_in names c then go r else decompose names c :: go r
            end) cs)
  end.

(** ** The CSS selector engine *)

Definition is_lower_letter (c : ascii) : bool :=
  let n := nat_of_ascii c in ((97 <=? n) && (n <=? 122))%nat.

Definition is_digit (c : ascii) : bool :=
  let n := nat_of_ascii c in ((48 <=? n) && (n <=? 57))%nat.

(** A type selector: a lower-case element name such as [h1] or [title]. *)
Definition is_type_selector (sel : string) : bool :=
  match sel with
  | EmptyString => false
  | String c r =>
      is_lower_letter c
      && forallb (fun d => is_lower_letter d || is_digit d) (list_ascii_of_string r)
  end.

(** ** XML elements (ElementTree) and JSON values *)

Inductive element : Type :=
| Element (tag : string) (text : option string) (children : list element).

Definition tag_of (e : element) : string := match e with Element t _ _ => t end.
Definition text_of (e : element) : option string := match e with Element _ t _ => t end.

(** [root.iter()]: the element and all elements below it, in document order. *)
Fixpoint iter (e : element) : list element :=
  match e with
  | Element _ _ cs =>
      e :: (fix go (l : list element) : list element :=
              match l with
              | [] => []
              | c :: r => iter c ++ go r
              end) cs
  end.

(** What [json.loads] returns; an object is given by its items. *)
Inductive json : Type :=
| JNull
| JBool (b : bool)
| JNumber (z : Z)
| JString (s : string)
| JArray (l : list json)
| JObject (items : list (string * json)).

(** ** HTTP responses *)

Record response := Response {
  status_code : Z;
  reason : string;                (* [r.reason] *)
  response_url : string;          (* [r.url] *)
  headers : gmap string string;   (* keyed by the lower-case header name *)
  content : list Byte.byte;       (* [r.content] *)
  text : string                   (* [r.text] *)
}.

(** [str(n)] for an integer. *)
Definition decimal (n : Z) : string := NilZero.string_of_int (Z.to_int n).

(** The message of the [HTTPError] that [r.raise_for_status()] raises
    for a status from 400 to 599. *)
Definition http_error_msg (r : response) : string :=
  (decimal (status_code r)
   ++ (if (status_code r <? 500)%Z then " Client Error: " else " Server Error: ")
   ++ reason r ++ " for url: " ++ response_url r)%string.

(** [type(v).__name__] of a parsed JSON value. *)
Definition type_name (v : json) : string :=
  match v with
  | JNull => "NoneType"
  | JBool _ => "bool"
  | JNumber _ => "int"
  | JString _ => "str"
  | JArray _ => "list"
  | JObject _ => "dict"
  end.

(** [str(exc)] of the [AttributeError] for a missing attribute. *)
Definition no_attribute (v : json) (attribute : string) : string :=
  ("'" ++ type_name v ++ "' object has no attribute '" ++ attribute ++ "'")%string.

(** ** The functions of [server.py] *)

Definition headings : list string := ["h2"; "h3"; "h4"].

(** [soup.select(selector)]: type selectors are evaluated here, every
    other selector by the engine [css], which may reject it. *)
Definition select (css : string -> node -> result (list node))
    (selector : string) (soup : node) : result (list node) :=
  if is_type_selector selector then Returns (find_all [selector] soup)
  else css selector soup.

Definition _extract_text (css : string -> node -> result (list node))
    (soup : node) (selector : string) : result string :=
  els ← select css selector soup;
  Returns (match els with
           | el :: _ => get_text el
           | [] => EmptyString
           end).

Definition _extract_meta (soup : node) (key : string) (by_ : string) : string :=
  match find_meta soup by_ key with
  | Some el =>
      match attrs_of el !! "content" with
      | Some c => if PyStr.truthy c then PyStr.strip c else EmptyString
      | None => EmptyString
      end
  | None => EmptyString
  end.

(** The inner loop of [_extract_section_list]: [Some] is a [return],
    [None] the end of the siblings. *)
Fixpoint section_list_scan (sibs : list node) : option (list string) :=
  match sibs with
  | [] => None
  | sib :: rest =>
      if name_in headings sib then Some []
      else if name_in ["ul"; "ol"] sib
           then Some (List.filter PyStr.truthy (List.map get_text (find_all ["li"] sib)))
           else section_list_scan rest
  end.

Fixpoint section_list_loop (needle : string) (hs : list (node * list node))
  : list string :=
  match hs with
  | [] => []
  | (h, sibs) :: rest =>
      let htxt := PyStr.lower (get_text h) in
      if negb (PyStr.startswith needle htxt) then section_list_loop needle rest
      else match section_list_scan sibs with
           | Some r => r
           | None => section_list_loop needle rest
           end
  end.

Definition heading_entries (soup : node) : list (node * list node) :=
  List.filter (fun p => name_in headings (fst p)) (tags_with_siblings soup).

Definition _extract_section_list (soup : node) (title : string) : list string :=
  let needle := PyStr.lower (PyStr.strip title) in
  section_list_loop needle (heading_entries soup).

(** The inner loop of [_extract_section_text], with its [parts]. *)
Fixpoint section_text_scan (sibs : list node) (parts : list string) : list string :=
  match sibs with
  | [] => parts
  | sib :: rest =>
      if name_in headings sib then parts
      else
        let parts1 :=
          if name_in ["p"] sib
          then (let txt := get_text sib in
                if PyStr.truthy txt then parts ++ [txt] else parts)
          else parts in
        let parts2 :=
          if name_in ["ul"; "ol"] sib
          then (let items := List.filter PyStr.truthy
                               (List.map get_text (find_all ["li"] sib)) in
                match items with
                | [] => parts1
                | _ => parts1 ++ [PyStr.join "; " items]
                end)
          else parts1 in
        section_text_scan rest parts2
  end.

Fixpoint section_text_loop (needle : string) (hs : list (node * list node)) : string :=
  match hs with
  | [] => EmptyString
  | (h, sibs) :: rest =>
      let htxt := PyStr.lower (get_text h) in
      if negb (PyStr.startswith needle htxt) then section_text_loop needle rest
      else PyStr.strip (PyStr.join " " (section_text_scan sibs []))
  end.

Definition _extract_section_text (soup : node) (title : string) : string :=
  let needle := PyStr.lower (PyStr.strip title) in
  section_text_loop needle (heading_entries soup).

(** The inner loop of [_extract_what_is], with its [parts]. *)
Fixpoint what_is_scan (sibs : list node) (parts : list string) : list string :=
  match sibs with
  | [] => parts
  | sib :: rest =>
      if name_in headings sib then parts
      else
        what_is_scan rest
          (if name_in ["p"] sib
           then (let txt := get_text sib in
                 if PyStr.truthy txt then parts ++ [txt] else parts)
           else parts)
  end.

Fixpoint what_is_loop (hs : list (node * list node)) : string :=
  match hs with
  | [] => EmptyString
  | (h, sibs) :: rest =>
      let t := get_text h in
      if negb (PyStr.startswith "what is" (PyStr.lower t)) then what_is_loop rest
      else PyStr.strip (PyStr.join " " (what_is_scan sibs []))
  end.

Definition _extract_what_is (soup : node) : string :=
  what_is_loop (heading_entries soup).

(** [fallback.get(key, default)] with the empty string as default *)
Definition get_default (d : gmap string string) (key : string) : string :=
  default EmptyString (d !! key).

Definition _clean_text (text : string) : string :=
  PyStr.strip (PyStr.sub_spaces false text).

(** The loop over the anchors of [_extract_html_content], on the [href]
    values of the anchors that have one, with its [links] and [seen].
    [urljoin] raises on a reference it cannot parse, and the loop with it. *)
Fixpoint links_loop (urljoin : string -> string -> result string) (url : string)
    (hrefs : list string) (links : list string) (seen : gset string)
  : result (list string) :=
  match hrefs with
  | [] => Returns links
  | h :: rest =>
      href ← urljoin url h;
      if decide (href ∈ seen) then links_loop urljoin url rest links seen
      else
        let links' := links ++ [href] in
        if (50 <=? length links')%nat then Returns links'
        else links_loop urljoin url rest links' ({[href]} ∪ seen)
  end.

(** The [href] values of [soup.find_all("a", href=True)]. *)
Definition anchor_hrefs (soup : node) : list string :=
  omap (fun a => attrs_of a !! "href") (find_all ["a"] soup).

Section Extractors.

(** [BeautifulSoup(html, "html.parser")] *)
Variable BeautifulSoup : string -> node.
Variable css : string -> node -> result (list node).
Variable urljoin : string -> string -> result string.

Definition _parse_tool_page (html : string) (fallback : gmap string string)
    (url : string) : result (gmap string value) :=
  let soup := BeautifulSoup html in
  h1 ← _extract_text css soup "h1";
  let name :=
    PyStr.or_else h1
      (PyStr.or_else (_extract_meta soup "og:title" "property")
         (get_default fallback "name")) in
  let description :=
    PyStr.or_else (_extract_meta soup "og:description" "property")
      (PyStr.or_else (_extract_meta soup "description" "name")
         (get_default fallback "short_description")) in
  if negb (PyStr.truthy description)
  then Raises (Exception "RuntimeError" "Tool page has no description")
  else
    Returns (dict [
      ("name", VStr name);
      ("description", VStr description);
      ("url", VStr url);
      ("website_url", VStr (get_default fallback "website_url"));
      ("what_is", VStr (_extract_what_is soup));
      ("key_features", strs (_extract_section_list soup "Key Features"));
      ("pros", strs (_extract_section_list soup "Pros"));
      ("cons", strs (_extract_section_list soup "Cons"));
      ("who_uses", VStr (_extract_section_text soup "Who is Using"));
      ("og_image", VStr (_extract_meta soup "og:image" "property"))
    ]).

(** [soup.find("main") or soup.find("article") or soup.body or soup] *)
Definition main_region (soup : node) : node :=
  match find "main" soup with
  | Some m => m
  | None =>
      match find "article" soup with
      | Some a => a
      | None => match find "body" soup with
                | Some b => b
                | None => soup
                end
      end
  end.

Definition _extract_html_content (html : string) (url : string)
  : result (gmap string value) :=
  let soup := BeautifulSoup html in
  t ← _extract_text css soup "title";
  title ← (if PyStr.truthy t then Returns t else _extract_text css soup "h1");
  let description :=
    PyStr.or_else (_extract_meta soup "description" "name")
      (_extract_meta soup "og:description" "property") in
  let soup := decompose ["script"; "style"; "noscript"; "iframe"] soup in
  let main := main_region soup in
  let text := _clean_text (get_text main) in
  links ← links_loop urljoin url (anchor_hrefs soup) [] ∅;
  Returns (dict [
    ("type", VStr "html");
    ("url", VStr url);
    ("title", VStr title);
    ("description", VStr description);
    ("text", VStr text);
    ("text_length", VInt (PyStr.len text));
    ("links", strs links)
  ]).

Variable pdf_page_texts : list Byte.byte -> result (list string).
Variable docx_paragraph_texts : list Byte.byte -> result (list string).
(** [data.decode("utf-8", errors="ignore")] *)
Variable decode_utf8 : list Byte.byte -> string.

(** [pdf_page_texts] stands for [PdfReader(io.BytesIO(data))] and, for
    each page in order, [page.extract_text()] with [None] read as the
    empty string; it raises when the reader does. *)
Definition _extract_pdf_text (data : list Byte.byte) : result string :=
  page_texts ← pdf_page_texts data;
  let pages := List.filter (fun t => PyStr.truthy (PyStr.strip t)) page_texts in
  Returns (_clean_text (PyStr.join (String "010" EmptyString) pages)).

(** [docx_paragraph_texts] stands for [Document(io.BytesIO(data))] and
    [p.text] for each of its paragraphs in order. *)
Definition _extract_docx_text (data : list Byte.byte) : result string :=
  paragraphs ← docx_paragraph_texts data;
  Returns (_clean_text
             (PyStr.join (String "010" EmptyString)
                (List.filter (fun t => PyStr.truthy (PyStr.strip t)) paragraphs))).

Definition endswith_any (sufs : list string) (s : string) : bool :=
  existsb (fun suf => PyStr.endswith suf s) sufs.

Definition _extract_file_content (data : list Byte.byte) (source : string)
  : result (gmap string value) :=
  let path := PyStr.split_head "?" (PyStr.lower source) in
  if PyStr.endswith ".pdf" path then
    text ← _extract_pdf_text data;
    Returns (dict [("type", VStr "pdf"); ("source", VStr source);
                   ("text", VStr text); ("text_length", VInt (PyStr.len text))])
  else if PyStr.endswith ".docx" path then
    text ← _extract_docx_text data;
    Returns (dict [("type", VStr "docx"); ("source", VStr source);
                   ("text", VStr text); ("text_length", VInt (PyStr.len text))])
  else
    let text := decode_utf8 data in
    if endswith_any [".md"; ".markdown"] path then
      Returns (dict [("type", VStr "markdown"); ("source", VStr source);
                     ("text", VStr (_clean_text text));
                     ("text_length", VInt (PyStr.len (_clean_text text)))])
    else if endswith_any [".txt"; ".log"; ".csv"; ".json"; ".xml"] path then
      Returns (dict [("type", VStr "text"); ("source", VStr source);
                     ("text", VStr (_clean_text text));
                     ("text_length", VInt (PyStr.len (_clean_text text)))])
    else if PyStr.contains "<html" (PyStr.lower text)
            || PyStr.contains "<!doctype html" (PyStr.lower text) then
      parsed ← _extract_html_content text source;
      Returns (<["type" := VStr "html-file"]> parsed)
    else
      Returns (dict [("type", VStr "binary-or-unknown"); ("source", VStr source);
                     ("text", VStr EmptyString); ("text_length", VInt 0)]).

(** *** The operations that fetch *)

(** The state of the network, and [s.get(url, timeout=timeout_sec)] on
    a fresh session: a response, or a transport error. *)
Variable world : Type.
Variable http_get : string -> Z -> world -> result response * world.

Definition _download (url : string) (timeout_sec : Z) (w : world)
  : result response * world :=
  match http_get url timeout_sec w with
  | (Returns r, w') =>
      (* [r.raise_for_status()] *)
      if (400 <=? status_code r) && (status_code r <? 600)
      then (Raises (Exception "HTTPError" (http_error_msg r)), w')
      else (Returns r, w')
  | (Raises e, w') => (Raises e, w')
  end.

Definition crawl_url (url : string) (timeout_sec : Z) (w : world)
  : result (gmap string value) * world :=
  match _download url timeout_sec w with
  | (Raises e, w') => (Raises e, w')
  | (Returns r, w') =>
      (* [(r.headers.get("content-type") or empty).lower()] *)
      let ctype := PyStr.lower (default EmptyString (headers r !! "content-type")) in
      if negb (PyStr.contains "text/html" ctype)
         && negb (PyStr.contains "application/xhtml" ctype)
      then (Returns (dict [("type", VStr "non-html"); ("url", VStr url);
                           ("content_type", VStr ctype);
                           ("size_bytes", VInt (Z.of_nat (length (content r))))]),
            w')
      else (_extract_html_content (text r) url, w')
  end.

(** The loop of [crawl_many] over [urls[:20]], with its [results]. *)
Fixpoint crawl_many_loop (urls : list string) (timeout_sec : Z)
    (results : list (gmap string value)) (w : world)
  : list (gmap string value) * world :=
  match urls with
  | [] => (results, w)
  | url :: rest =>
      match crawl_url url timeout_sec w with
      | (Returns r, w') => crawl_many_loop rest timeout_sec (results ++ [r]) w'
      | (Raises exc, w') =>
          crawl_many_loop rest timeout_sec
            (results ++ [dict [("type", VStr "error"); ("url", VStr url);
                               ("error", VStr (exn_str exc))]]) w'
      end
  end.

Definition crawl_many (urls : list string) (timeout_sec : Z) (w : world)
  : result (list (gmap string value)) * world :=
  let (results, w') := crawl_many_loop (firstn 20 urls) timeout_sec [] w in
  (Returns results, w').

(** [ElementTree.fromstring] *)
Variable fromstring : list Byte.byte -> result element.

(** [node.text] is truthy. *)
Definition has_text (e : element) : bool :=
  match text_of e with
  | Some t => PyStr.truthy t
  | None => false
  end.

(** The loop of [crawl_sitemap] over [root.iter()], with its [urls]. *)
Fixpoint sitemap_loop (nodes : list element) (urls : list string) : list string :=
  match nodes with
  | [] => urls
  | node :: rest =>
      let tag := PyStr.lower (tag_of node) in
      if PyStr.endswith "loc" tag && has_text node
      then sitemap_loop rest (urls ++ [PyStr.strip (default EmptyString (text_of node))])
      else sitemap_loop rest urls
  end.

Definition clamp_limit (limit : Z) : Z := Z.max 1 (Z.min 200 limit).

Definition crawl_sitemap (sitemap_url : string) (limit : Z) (timeout_sec : Z)
    (w : world) : result (gmap string value) * world :=
  match _download sitemap_url timeout_sec w with
  | (Raises e, w') => (Raises e, w')
  | (Returns r, w') =>
      (root ← fromstring (content r);
       let urls := sitemap_loop (iter root) [] in
       let limit := clamp_limit limit in
       Returns (dict [("sitemap_url", VStr sitemap_url);
                      ("total_urls", VInt (Z.of_nat (length urls)));
                      ("urls", strs (firstn (Z.to_nat limit) urls))]),
       w')
  end.

(** [json.loads] *)
Variable json_loads : string -> result json.

(** The value [extract_structured] stores for one field. *)
Definition extract_field (soup : node) (selector : json) : result value :=
  match selector with
  | JString s =>
      t ← _extract_text css soup s; Returns (VStr t)
  | JArray (JString s :: _) =>
      els ← select css s soup;
      Returns (strs (List.filter PyStr.truthy (List.map get_text els)))
  | _ => Returns VNone
  end.

(** The loop over [schema.items()], with [out["fields"]]. *)
Fixpoint fields_loop (soup : node) (items : list (string * json))
    (fields : gmap string value) : result (gmap string value) :=
  match items with
  | [] => Returns fields
  | (key, selector) :: rest =>
      v ← extract_field soup selector;
      fields_loop soup rest (<[key := v]> fields)
  end.

Definition extract_structured (url : string) (schema_json : string)
    (timeout_sec : Z) (w : world) : result (gmap string value) * world :=
  match json_loads schema_json with
  | Raises e => (Raises e, w)
  | Returns schema =>
      match _download url timeout_sec w with
      | (Raises e, w') => (Raises e, w')
      | (Returns r, w') =>
          let soup := BeautifulSoup (text r) in
          (match schema with
           | JObject items =>
               fields ← fields_loop soup items ∅;
               Returns (dict [("url", VStr url); ("fields", VDict fields)])
           | _ => Raises (Exception "AttributeError" (no_attribute schema "items"))
           end, w')
      end
  end.

(** What a batch crawl does from a state [w] of the network: one record
    per URL in order, each crawl starting where the previous one left the
    network; a crawl that raises leaves an [error] record for its URL. *)
Inductive batch_trace (timeout_sec : Z)
  : world -> list string -> list (gmap string value) -> world -> Prop :=
| batch_done w : batch_trace timeout_sec w [] [] w
| batch_ok w url r w1 urls records w2 :
    crawl_url url timeout_sec w = (Returns r, w1) ->
    batch_trace timeout_sec w1 urls records w2 ->
    batch_trace timeout_sec w (url :: urls) (r :: records) w2
| batch_error w url exc w1 urls records w2 :
    crawl_url url timeout_sec w = (Raises exc, w1) ->
    batch_trace timeout_sec w1 urls records w2 ->
    batch_trace timeout_sec w (url :: urls)
      (dict [("type", VStr "error"); ("url", VStr url); ("error", VStr (exn_str exc))]
         :: records) w2.

(** The records the extractors hand back. *)
Inductive extraction_record : gmap string value -> Prop :=
| from_html html url r :
    _extract_html_content html url = Returns r -> extraction_record r
| from_file data source r :
    _extract_file_content data source = Returns r -> extraction_record r
| from_crawl url timeout_sec w r w' :
    crawl_url url timeout_sec w = (Returns r, w') -> extraction_record r.

End Extractors.

(** ** Declarative counterparts used in the statements *)

(** The text of the first element of a given name, empty when there is none. *)
Definition element_text (name : string) (soup : node) : string :=
  match find name soup with
  | Some el => get_text el
  | None => EmptyString
  end.

(** The first non-empty string of a list, empty when there is none. *)
Fixpoint first_non_empty (candidates : list string) : string :=
  match candidates with
  | [] => EmptyString
  | c :: rest => if PyStr.truthy c then c else first_non_empty rest
  end.

(** The first occurrence of every element, in order. *)
Fixpoint first_occurrences (l : list string) : list string :=
  match l with
  | [] => []
  | x :: r => x :: List.filter (fun y => negb (String.eqb y x)) (first_occurrences r)
  end.

(** The siblings up to the next heading. *)
Fixpoint until_heading (sibs : list node) : list node :=
  match sibs with
  | [] => []
  | sib :: rest => if name_in headings sib then [] else sib :: until_heading rest
  end.

(** The first heading whose lower-cased text starts with [needle]. *)
Definition first_heading (needle : string) (soup : node) : option (node * list node) :=
  List.find (fun p => PyStr.startswith needle (PyStr.lower (get_text (fst p))))
    (heading_entries soup).


(** The namespace-stripped name of an ElementTree tag [{uri}local]. *)
Fixpoint after_brace (t : string) : option string :=
  match t with
  | EmptyString => None
  | String c r =>
      match after_brace r with
      | Some l => Some l
      | None => if Ascii.eqb c "}" then Some r else None
      end
  end.

Definition local_name (t : string) : string := default t (after_brace t).

(** An element the sitemap walk is meant to collect: a [loc] with text. *)
Definition is_loc (e : element) : bool :=
  String.eqb (local_name (PyStr.lower (tag_of e))) "loc" && has_text e.

Definition loc_texts (root : element) : list string :=
  List.map (fun e => PyStr.strip (default EmptyString (text_of e)))
    (List.filter is_loc (iter root)).

(** ** Sample collaborators and documents *)

(** A parser given by a table of the documents it knows; any other input
    parses to the empty document. *)
Definition table_parser (pages : list (string * node)) (html : string) : node :=
  match List.find (fun p => String.eqb (fst p) html) pages with
  | Some p => snd p
  | None => document []
  end.

(** A selector engine that rejects whatever is handed to it. *)
Definition strict_css (selector : string) (soup : node) : result (list node) :=
  Raises (Exception "SelectorSyntaxError" "Invalid selector").

(** [urljoin] on the two cases the samples need: a reference with a
    scheme stands for itself, any other is appended to the base. *)
Definition sample_urljoin (base ref : string) : result string :=
  if PyStr.contains "://" ref then Returns ref else Returns (base ++ ref)%string.

Definition txt (s : string) : node := Str NavigableString s.

(** A record whose [text_length] is the length of its [text]. *)
Definition consistent_length (r : gmap string value) : Prop :=
  exists t, r !! "text" = Some (VStr t)
            /\ r !! "text_length" = Some (VInt (PyStr.len t)).

(** [data.decode("utf-8", errors="ignore")] on ASCII bytes. *)
Definition sample_decode (data : list Byte.byte) : string := string_of_list_byte data.

(** Readers for inputs that are neither PDF nor DOCX documents. *)
Definition no_document (data : list Byte.byte) : result (list string) :=
  Raises (Exception "DecodeError" "not a document").

(** A page with both a [title] element and an [h1]. *)
Definition titled_page : string :=
  "<html><head><title>Site</title></head><body><h1>Welcome</h1></body></html>".

Definition titled_soup : node :=
  document [Tag "html" ∅
              [Tag "head" ∅ [Tag "title" ∅ [txt "Site"]];
               Tag "body" ∅ [Tag "h1" ∅ [txt "Welcome"]]]].

(** A page with both description metas, the Open Graph one first. *)
Definition described_page : string :=
  "<html><head><meta property='og:description' content='Shared'><meta name='description' content='Plain'></head><body></body></html>".

Definition described_soup : node :=
  document [Tag "html" ∅
              [Tag "head" ∅
                 [Tag "meta" {[ "property" := "og:description"; "content" := "Shared" ]} [];
                  Tag "meta" {[ "name" := "description"; "content" := "Plain" ]} []];
               Tag "body" ∅ []]].



(** A tool page with a description and none of the optional sections. *)
Definition bare_page : string :=
  "<html><head><meta property='og:description' content='Bare'></head><body></body></html>".

Definition bare_soup : node :=
  document [Tag "html" ∅
              [Tag "head" ∅
                 [Tag "meta" {[ "property" := "og:description"; "content" := "Bare" ]} []];
               Tag "body" ∅ []]].


(** A page whose only anchor stands inside a [noscript] element. *)
Definition noscript_page : string :=
  "<html><body><noscript><a href='https://b.example/x'>x</a></noscript></body></html>".

Definition noscript_soup : node :=
  document [Tag "html" ∅
              [Tag "body" ∅
                 [Tag "noscript" ∅
                    [Tag "a" {[ "href" := "https://b.example/x" ]} [txt "x"]]]]].

(** The tree the links are read from: the document without its
    [script], [style], [noscript] and [iframe] elements. *)
Definition pruned (soup : node) : node :=
  decompose ["script"; "style"; "noscript"; "iframe"] soup.

(** The test of the links loop: [href not in seen]. *)
Definition unseen (seen : gset string) (y : string) : bool :=
  negb (bool_decide (y ∈ seen)).

(** The references of a list resolved against the origin, one by one;
    the first one [urljoin] rejects makes the whole raise. *)
Fixpoint resolve_all (urljoin : string -> string -> result string) (url : string)
    (hrefs : list string) : result (list string) :=
  match hrefs with
  | [] => Returns []
  | h :: rest =>
      href ← urljoin url h;
      resolved ← resolve_all urljoin url rest;
      Returns (href :: resolved)
  end.

(** The record of a page, given its tree, its origin and its links. *)
Definition page_record (soup : node) (url : string) (links : list string)
  : gmap string value :=
  let text := _clean_text (get_text (main_region (pruned soup))) in
  dict [
    ("type", VStr "html");
    ("url", VStr url);
    ("title", VStr (PyStr.or_else (element_text "title" soup) (element_text "h1" soup)));
    ("description",
      VStr (PyStr.or_else (_extract_meta soup "description" "name")
              (_extract_meta soup "og:description" "property")));
    ("text", VStr text);
    ("text_length", VInt (PyStr.len text));
    ("links", strs links)
  ].

(** A page with the same relative link twice and an absolute one, and a
    link inside an [iframe]. *)
Definition linked_page : string :=
  "<html><body><a href='x'>one</a><a href='https://b.example/'>two</a><a href='x'>again</a><iframe><a href='y'>in</a></iframe></body></html>".

Definition linked_soup : node :=
  document [Tag "html" ∅
              [Tag "body" ∅
                 [Tag "a" {[ "href" := "x" ]} [txt "one"];
                  Tag "a" {[ "href" := "https://b.example/" ]} [txt "two"];
                  Tag "a" {[ "href" := "x" ]} [txt "again"];
                  Tag "iframe" ∅ [Tag "a" {[ "href" := "y" ]} [txt "in"]]]]].

(** A page whose heading has two spaces inside its text. *)
Definition spaced_page : string :=
  "<html><body><h1>Big  News</h1><p>one</p><p> </p></body></html>".

Definition spaced_soup : node :=
  document [Tag "html" ∅
              [Tag "body" ∅
                 [Tag "h1" ∅ [txt "Big  News"];
                  Tag "p" ∅ [txt "one"];
                  Tag "p" ∅ [txt " "]]]].

(** A schema with a scalar field and a two-element list selector. *)
Definition quoted (s : string) : string :=
  (String "034" s ++ String "034" EmptyString)%string.

Definition sample_schema_json : string :=
  ("{" ++ quoted "title" ++ ": " ++ quoted "h1" ++ ", "
       ++ quoted "items" ++ ": [" ++ quoted "p" ++ ", " ++ quoted "h1" ++ "]}")%string.

Definition sample_schema : json :=
  JObject [("title", JString "h1"); ("items", JArray [JString "p"; JString "h1"])].

(** A JSON reader given by a table of the texts it knows. *)
Definition table_json (table : list (string * json)) (s : string) : result json :=
  match List.find (fun p => String.eqb (fst p) s) table with
  | Some p => Returns (snd p)
  | None => Raises (Exception "JSONDecodeError" "Expecting value")
  end.

(** A network that serves one HTML page at every URL. *)
Definition serve_page (page : string) (url : string) (timeout_sec : Z) (w : unit)
  : result response * unit :=
  (Returns (Response 200 "OK" url {[ "content-type" := "text/html" ]}
              (list_byte_of_string page) page), w).

(** The text of the first element of a list of matches. *)
Definition first_text (els : list node) : string :=
  match els with
  | el :: _ => get_text el
  | [] => EmptyString
  end.

(** The non-empty texts of a list of matches. *)
Definition texts (els : list node) : list string :=
  List.filter PyStr.truthy (List.map get_text els).

(** Selector shapes that are neither a string nor a list that starts
    with a string. *)
Definition other_shape (selector : json) : Prop :=
  match selector with
  | JString _ => False
  | JArray (JString _ :: _) => False
  | _ => True
  end.

(** What the sitemap loop keeps: a tag that ends in [loc], and a text. *)
Definition collected (e : element) : bool :=
  PyStr.endswith "loc" (PyStr.lower (tag_of e)) && has_text e.

Definition stripped_text (e : element) : string :=
  PyStr.strip (default EmptyString (text_of e)).

(** An XML reader given by a table of the documents it knows. *)
Definition table_xml (table : list (string * element)) (data : list Byte.byte)
  : result element :=
  match List.find (fun p => String.eqb (fst p) (string_of_list_byte data)) table with
  | Some p => Returns (snd p)
  | None => Raises (Exception "ParseError" "syntax error")
  end.

Definition sitemap_ns : string := "{http://www.sitemaps.org/schemas/sitemap/0.9}".

(** The sitemap of the design document's example. *)
Definition two_url_sitemap : string :=
  "<urlset xmlns='http://www.sitemaps.org/schemas/sitemap/0.9'><url><loc>https://a/1</loc></url><url><loc>https://a/2</loc></url></urlset>".

Definition two_url_tree : element :=
  Element (sitemap_ns ++ "urlset")%string None
    [Element (sitemap_ns ++ "url")%string None
       [Element (sitemap_ns ++ "loc")%string (Some "https://a/1") []];
     Element (sitemap_ns ++ "url")%string None
       [Element (sitemap_ns ++ "loc")%string (Some "https://a/2") []]].

(** A sitemap with an element whose name only ends in [loc], and with an
    empty [loc]. *)
Definition geo_sitemap : string :=
  "<urlset><url><loc>https://a/1</loc><geoloc>Paris</geoloc></url><url><loc/></url></urlset>".

Definition geo_tree : element :=
  Element "urlset" None
    [Element "url" None
       [Element "loc" (Some "https://a/1") [];
        Element "geoloc" (Some "Paris") []];
     Element "url" None [Element "loc" None []]].

(** A network on which the host [valid.example] serves a page and every
    other request fails to connect; the state counts the requests. *)
Definition one_host_network (url : string) (timeout_sec : Z) (w : nat)
  : result response * nat :=
  if String.eqb url "https://valid.example"
  then (Returns (Response 200 "OK" url {[ "content-type" := "text/html; charset=utf-8" ]}
                   (list_byte_of_string titled_page) titled_page), S w)
  else (Raises (Exception "ConnectionError" "Failed to establish a new connection"), S w).

(** ** Shapes of strings *)

(** The string starts with a white character. *)
Definition starts_white (s : string) : bool :=
  match s with
  | EmptyString => false
  | String c _ => PyStr.is_space c
  end.

(** The string ends with a white character. *)
Fixpoint ends_white (s : string) : bool :=
  match s with
  | EmptyString => false
  | String c EmptyString => PyStr.is_space c
  | String _ r => ends_white r
  end.

(** Every white character is a plain space, and no two of them are
    adjacent. *)
Fixpoint spaced (s : string) : bool :=
  match s with
  | EmptyString => true
  | String c r =>
      (if PyStr.is_space c then Ascii.eqb c " " && negb (starts_white r) else true)
      && spaced r
  end.

(** A normalized text: no white space at either end, and inside only
    single plain spaces. *)
Definition normalized (s : string) : bool :=
  negb (starts_white s) && negb (ends_white s) && spaced s.

(** No white space at either end. *)
Definition trimmed (s : string) : bool :=
  negb (starts_white s) && negb (ends_white s).

(** A record whose [text] is normalized. *)
Definition normalized_text (r : gmap string value) : Prop :=
  exists t, r !! "text" = Some (VStr t) /\ normalized t = true.

(** ** Sections of a tool page, declaratively *)

(** The non-empty texts of the items of a list element. *)
Definition list_items (sib : node) : list string :=
  List.filter PyStr.truthy (List.map get_text (find_all ["li"] sib)).

(** A sibling that ends the scan of a list section: a heading or a list. *)
Definition is_stop (sib : node) : bool :=
  name_in headings sib || name_in ["ul"; "ol"] sib.

(** A heading entry that decides a list section: its text starts with
    the needle and a heading or a list follows it. *)
Definition decides (needle : string) (p : node * list node) : bool :=
  PyStr.startswith needle (PyStr.lower (get_text (fst p))) && existsb is_stop (snd p).

(** What one sibling adds to a narrative section. *)
Definition narrative_part (sib : node) : list string :=
  (if name_in ["p"] sib
   then (if PyStr.truthy (get_text sib) then [get_text sib] else [])
   else [])
  ++ (if name_in ["ul"; "ol"] sib
      then match list_items sib with
           | [] => []
           | items => [PyStr.join "; " items]
           end
      else []).

(** ** Views of the file dispatcher *)

(** The path the dispatcher looks at: the source in lower case, up to
    its first question mark. *)
Definition file_path (source : string) : string :=
  PyStr.split_head "?" (PyStr.lower source).

(** What a result holds under a key. *)
Definition field_of (key : string) (res : result (gmap string value))
  : result (option value) :=
  match res with
  | Returns r => Returns (r !! key)
  | Raises e => Raises e
  end.

(** A document reader given by a table of the documents it knows, each
    with the texts of its pages or paragraphs. *)
Definition table_reader (table : list (string * list string)) (data : list Byte.byte)
  : result (list string) :=
  match List.find (fun p => String.eqb (fst p) (string_of_list_byte data)) table with
  | Some p => Returns (snd p)
  | None => Raises (Exception "DecodeError" "not a document")
  end.

(** ** Extraction from a file or a URL *)

Section FileCrawl.

Variable BeautifulSoup : string -> node.
Variable css : string -> node -> result (list node).
Variable urljoin : string -> string -> result string.
Variable pdf_page_texts : list Byte.byte -> result (list string).
Variable docx_paragraph_texts : list Byte.byte -> result (list string).
Variable decode_utf8 : list Byte.byte -> string.
Variable world : Type.
Variable http_get : string -> Z -> world -> result response * world.
(** [urlparse(source).scheme]; [urlparse] raises on a source it cannot
    parse. *)
Variable url_scheme : string -> result string.
(** [os.path.exists(source)] *)
Variable path_exists : string -> world -> bool.
(** [open(source, "rb")] and [f.read()] *)
Variable read_file : string -> world -> result (list Byte.byte) * world.

Definition crawl_file (source : string) (timeout_sec : Z) (w : world)
  : result (gmap string value) * world :=
  match url_scheme source with
  | Raises e => (Raises e, w)
  | Returns scheme =>
      if existsb (String.eqb scheme) ["http"; "https"] then
        match _download world http_get source timeout_sec w with
        | (Raises e, w') => (Raises e, w')
        | (Returns r, w') =>
            (_extract_file_content BeautifulSoup css urljoin pdf_page_texts
               docx_paragraph_texts decode_utf8 (content r) source, w')
        end
      else if negb (path_exists source w) then
        (Raises (Exception "RuntimeError" ("File not found: " ++ source)), w)
      else
        match read_file source w with
        | (Raises e, w') => (Raises e, w')
        | (Returns data, w') =>
            (_extract_file_content BeautifulSoup css urljoin pdf_page_texts
               docx_paragraph_texts decode_utf8 data source, w')
        end
  end.

End FileCrawl.

(** The scheme of the sample sources: [http], [https] or none. *)
Definition sample_scheme (source : string) : result string :=
  if PyStr.startswith "https://" source then Returns "https"
  else if PyStr.startswith "http://" source then Returns "http"
  else Returns EmptyString.

(** A file system with one file, [notes.txt]. *)
Definition notes_exists (source : string) (w : unit) : bool :=
  String.eqb source "notes.txt".

Definition notes_read (source : string) (w : unit) : result (list Byte.byte) * unit :=
  if String.eqb source "notes.txt" then (Returns (list_byte_of_string "a  b"), w)
  else (Raises (Exception "FileNotFoundError" "No such file or directory"), w).

(** A network that is down. *)
Definition offline (url : string) (timeout_sec : Z) (w : unit) : result response * unit :=
  (Raises (Exception "ConnectionError" "offline"), w).

(** A network that answers every request with one response. *)
Definition answer (r : response) (url : string) (timeout_sec : Z) (w : unit)
  : result response * unit :=
  (Returns r, w).

(** ** The Futurepedia tools *)

Definition FUTUREPEDIA_SEARCH_API_URL : string := "https://www.futurepedia.io/api/search".
Definition BASE_TOOL_URL : string := "https://www.futurepedia.io/tool/".

(** Truthiness of a parsed JSON value. *)
Definition json_truthy (v : json) : bool :=
  match v with
  | JNull => false
  | JBool b => b
  | JNumber z => negb (z =? 0)
  | JString s => PyStr.truthy s
  | JArray l => match l with [] => false | _ => true end
  | JObject items => match items with [] => false | _ => true end
  end.

(** [d.get(key)] on a parsed JSON object: [None] when the key is absent. *)
Definition json_get (items : list (string * json)) (key : string) : json :=
  match List.find (fun p => String.eqb (fst p) key) items with
  | Some p => snd p
  | None => JNull
  end.

(** [(v or empty).strip()]: a falsy value reads as the empty string, and
    a truthy value that is not a string has no [strip]. *)
Definition or_empty_strip (v : json) : result string :=
  if json_truthy v then
    match v with
    | JString s => Returns (PyStr.strip s)
    | _ => Raises (Exception "AttributeError" (no_attribute v "strip"))
    end
  else Returns (PyStr.strip EmptyString).

(** The part of [_fetch_random_meta] that follows [random.choice]. *)
Definition meta_of_tool (tool : json) : result (gmap string string) :=
  match tool with
  | JObject fields =>
      let slug_field := json_get fields "slug" in
      slug ← match slug_field with
             | JObject slug_fields => or_empty_strip (json_get slug_fields "current")
             | JString s => Returns (PyStr.strip s)
             | _ => Returns EmptyString
             end;
      if negb (PyStr.truthy slug)
      then Raises (Exception "RuntimeError" "Futurepedia item missing slug")
      else
        name ← or_empty_strip (json_get fields "toolName");
        short_description ← or_empty_strip (json_get fields "toolShortDescription");
        website_url ← or_empty_strip (json_get fields "websiteUrl");
        Returns (<["website_url" := website_url]>
                   (<["short_description" := short_description]>
                      (<["name" := name]> (<["slug" := slug]> ∅))))
  | _ => Raises (Exception "AttributeError" (no_attribute tool "get"))
  end.

Definition search_payload : json :=
  JObject [("query", JString EmptyString); ("page", JNumber 1); ("sort", JString "new")].

Section Futurepedia.

Variable BeautifulSoup : string -> node.
Variable css : string -> node -> result (list node).
(** The state of the network and of the random generator. *)
Variable world : Type.
Variable http_get : string -> Z -> world -> result response * world.
(** [s.post(url, json=payload, timeout=timeout)] *)
Variable http_post : string -> json -> Z -> world -> result response * world.
(** [r.json()] *)
Variable response_json : response -> result json.
(** The index [random.choice] draws in a sequence of a given length. *)
Variable randbelow : nat -> world -> nat * world.

Definition _fetch_random_meta (w : world) : result (gmap string string) * world :=
  match http_post FUTUREPEDIA_SEARCH_API_URL search_payload 20 w with
  | (Raises e, w1) => (Raises e, w1)
  | (Returns r, w1) =>
      if (400 <=? status_code r) && (status_code r <? 600)
      then (Raises (Exception "HTTPError" "HTTP error status"), w1)
      else
        match response_json r with
        | Raises e => (Raises e, w1)
        | Returns (JObject data) =>
            (* [items = data.get("data") or []] *)
            let items := json_get data "data" in
            if negb (json_truthy items)
            then (Raises (Exception "RuntimeError" "Futurepedia search returned no items"),
                  w1)
            else
              (* [tool = random.choice(items)] *)
              match items with
              | JArray tools =>
                  let (i, w2) := randbelow (length tools) w1 in
                  match tools !! i with
                  | Some tool => (meta_of_tool tool, w2)
                  | None => (Raises (Exception "IndexError" "list index out of range"), w2)
                  end
              | JString s =>
                  let (i, w2) := randbelow (String.length s) w1 in
                  (* the choice is a string of one character *)
                  (Raises (Exception "AttributeError" (no_attribute items "get")), w2)
              | JObject fields =>
                  let (i, w2) := randbelow (length fields) w1 in
                  (Raises (Exception "KeyError" (decimal (Z.of_nat i))), w2)
              | _ =>
                  (Raises (Exception "TypeError"
                             ("object of type '" ++ type_name items ++ "' has no len()")),
                   w1)
              end
        | Returns data =>
            (Raises (Exception "AttributeError" (no_attribute data "get")), w1)
        end
  end.

Definition _fetch_one (w : world) : result (gmap string value) * world :=
  match _fetch_random_meta w with
  | (Raises e, w1) => (Raises e, w1)
  | (Returns meta, w1) =>
      let url := (BASE_TOOL_URL ++ get_default meta "slug")%string in
      (* [s.get(url, timeout=20)] and [r.raise_for_status()] *)
      match _download world http_get url 20 w1 with
      | (Raises e, w2) => (Raises e, w2)
      | (Returns r, w2) => (_parse_tool_page BeautifulSoup css (text r) meta url, w2)
      end
  end.

Definition futurepedia_random_tool (w : world) : result (gmap string value) * world :=
  _fetch_one w.

(** [[_fetch_one() for _ in range(n)]] *)
Fixpoint fetch_tools (n : nat) (w : world) : result (list (gmap string value)) * world :=
  match n with
  | O => (Returns [], w)
  | S k =>
      match _fetch_one w with
      | (Raises e, w1) => (Raises e, w1)
      | (Returns tool, w1) =>
          match fetch_tools k w1 with
          | (Raises e, w2) => (Raises e, w2)
          | (Returns tools, w2) => (Returns (tool :: tools), w2)
          end
      end
  end.

Definition futurepedia_tools (count : Z) (w : world)
  : result (list (gmap string value)) * world :=
  let count := Z.max 1 (Z.min 10 count) in
  fetch_tools (Z.to_nat count) w.

End Futurepedia.

(** A record of a tool page: its URL is the tool URL of a non-empty
    slug, and its description is not empty. *)
Definition tool_record (r : gmap string value) : Prop :=
  exists slug description,
    PyStr.truthy slug = true
    /\ r !! "url" = Some (VStr (BASE_TOOL_URL ++ slug)%string)
    /\ r !! "description" = Some (VStr description)
    /\ PyStr.truthy description = true.

(** A search answer with one tool, and the network that serves it and
    the page of the tool. *)
Definition search_answer : json :=
  JObject [("data",
            JArray [JObject [("slug", JObject [("current", JString " bare ")]);
                             ("toolName", JString "Bare");
                             ("toolShortDescription", JNull);
                             ("websiteUrl", JString "https://bare.example")]])].

Definition search_response : response :=
  Response 200 "OK" FUTUREPEDIA_SEARCH_API_URL {[ "content-type" := "application/json" ]}
    [] EmptyString.

Definition bare_response : response :=
  Response 200 "OK" "https://www.futurepedia.io/tool/bare" {[ "content-type" := "text/html" ]}
    (list_byte_of_string bare_page) bare_page.

Definition first_index (n : nat) (w : unit) : nat * unit := (0%nat, w).

Definition bare_tool_record : gmap string value :=
  dict [("name", VStr "Bare");
        ("description", VStr "Bare");
        ("url", VStr "https://www.futurepedia.io/tool/bare");
        ("website_url", VStr "https://bare.example");
        ("what_is", VStr EmptyString);
        ("key_features", VList []);
        ("pros", VList []);
        ("cons", VList []);
        ("who_uses", VStr EmptyString);
        ("og_image", VStr EmptyString)].
(** * Properties *)

(** ** Elementary facts *)

Lemma select_type_selector css name soup :
  is_type_selector name = true ->
  select css name soup = Returns (find_all [name] soup).
Proof. intros H. unfold select. now rewrite H. Qed.

Lemma extract_text_type_selector css name soup :
  is_type_selector name = true ->
  _extract_text css soup name = Returns (element_text name soup).
Proof.
  intros H. unfold _extract_text, element_text, find.
  rewrite (select_type_selector css name soup H). simpl.
  now destruct (find_all [name] soup).
Qed.

Lemma or_else_first_non_empty a b :
  PyStr.or_else a b = first_non_empty [a; b].
Proof.
  unfold PyStr.or_else. simpl. destruct (PyStr.truthy a); [reflexivity|].
  now destruct b.
Qed.

Lemma truthy_false s : PyStr.truthy s = false <-> s = EmptyString.
Proof. destruct s; simpl; split; congruence. Qed.

(** The general page extractor: the links loop, then the record. *)
Lemma extract_html_content_eq BeautifulSoup css urljoin html url :
  _extract_html_content BeautifulSoup css urljoin html url =
  (links ← links_loop urljoin url (anchor_hrefs (pruned (BeautifulSoup html))) [] ∅;
   Returns (page_record (BeautifulSoup html) url links)).
Proof.
  unfold _extract_html_content.
  rewrite !extract_text_type_selector by reflexivity.
  unfold page_record, pruned, PyStr.or_else at 2. simpl.
  destruct (PyStr.truthy (element_text "title" (BeautifulSoup html))); reflexivity.
Qed.

(** A record the extractor returns is the record of the page with the
    links of the loop. *)
Lemma extract_html_content_returns BeautifulSoup css urljoin html url r :
  _extract_html_content BeautifulSoup css urljoin html url = Returns r ->
  exists links,
    links_loop urljoin url (anchor_hrefs (pruned (BeautifulSoup html))) [] ∅
    = Returns links
    /\ r = page_record (BeautifulSoup html) url links.
Proof.
  rewrite extract_html_content_eq.
  destruct (links_loop _ _ _ _ _) as [links|e]; simpl; [|discriminate].
  intros [= <-]. now exists links.
Qed.


Lemma page_record_fields soup url links :
  page_record soup url links !! "type" = Some (VStr "html")
  /\ page_record soup url links !! "url" = Some (VStr url)
  /\ page_record soup url links !! "title"
     = Some (VStr (PyStr.or_else (element_text "title" soup) (element_text "h1" soup)))
  /\ page_record soup url links !! "description"
     = Some (VStr (PyStr.or_else (_extract_meta soup "description" "name")
                     (_extract_meta soup "og:description" "property")))
  /\ page_record soup url links !! "text"
     = Some (VStr (_clean_text (get_text (main_region (pruned soup)))))
  /\ page_record soup url links !! "text_length"
     = Some (VInt (PyStr.len (_clean_text (get_text (main_region (pruned soup))))))
  /\ page_record soup url links !! "links" = Some (strs links)
  /\ page_record soup url links !! "source" = None.
Proof.
  unfold page_record, dict; simpl. repeat split; now simplify_map_eq.
Qed.

Lemma dict_lookup_text_length (d : gmap string value) (t : string) k :
  k <> "text" -> k <> "text_length" ->
  forall v, d !! "text" = Some (VStr t) ->
            d !! "text_length" = Some (VInt (PyStr.len t)) ->
            (<[k := v]> d) !! "text" = Some (VStr t)
            /\ (<[k := v]> d) !! "text_length" = Some (VInt (PyStr.len t)).
Proof. intros ? ? v H1 H2. now rewrite !lookup_insert_ne. Qed.

Section Records.

Context (BeautifulSoup : string -> node)
        (css : string -> node -> result (list node))
        (urljoin : string -> string -> result string)
        (pdf_page_texts docx_paragraph_texts : list Byte.byte -> result (list string))
        (decode_utf8 : list Byte.byte -> string)
        (world : Type)
        (http_get : string -> Z -> world -> result response * world).

Local Abbreviation html_content := (_extract_html_content BeautifulSoup css urljoin).
Local Abbreviation file_content :=
  (_extract_file_content BeautifulSoup css urljoin pdf_page_texts
     docx_paragraph_texts decode_utf8).
Local Abbreviation fetch_page := (crawl_url BeautifulSoup css urljoin world http_get).

Local Abbreviation record_of_extractor :=
  (extraction_record BeautifulSoup css urljoin pdf_page_texts
     docx_paragraph_texts decode_utf8 world http_get).


Lemma html_content_consistent html url r :
  html_content html url = Returns r -> consistent_length r.
Proof.
  intros (links & _ & ->)%extract_html_content_returns.
  destruct (page_record_fields (BeautifulSoup html) url links)
    as (_ & _ & _ & _ & Ht & Hl & _).
  eexists. split; eassumption.
Qed.

Lemma file_content_consistent data source r :
  file_content data source = Returns r -> consistent_length r.
Proof.
  unfold _extract_file_content, _extract_pdf_text, _extract_docx_text.
  repeat match goal with
         | |- context [if ?b then _ else _] => destruct b
         end.
  - destruct (pdf_page_texts data); simpl; [|discriminate].
    intros [= <-]. eexists. unfold dict; simpl. split; simplify_map_eq; reflexivity.
  - destruct (docx_paragraph_texts data); simpl; [|discriminate].
    intros [= <-]. eexists. unfold dict; simpl. split; simplify_map_eq; reflexivity.
  - intros [= <-]. eexists. unfold dict; simpl. split; simplify_map_eq; reflexivity.
  - intros [= <-]. eexists. unfold dict; simpl. split; simplify_map_eq; reflexivity.
  - destruct (html_content (decode_utf8 data) source) as [parsed|] eqn:E;
      simpl; [|discriminate].
    intros [= <-]. destruct (html_content_consistent _ _ _ E) as (t & H1 & H2).
    exists t. now apply dict_lookup_text_length.
  - intros [= <-]. exists EmptyString. unfold dict; simpl.
    split; simplify_map_eq; reflexivity.
Qed.

(** C1. Every record an extractor returns that carries a [text] field
    holds a string there, and its [text_length] field is the number of
    characters of that string.  This covers the records of the HTML
    extractor, of the file dispatcher (pdf, docx, markdown, text,
    html-file, binary-or-unknown) and of a page crawl. *)
Theorem text_length_is_len_text (r : gmap string value) :
  record_of_extractor r ->
  forall v, r !! "text" = Some v ->
    exists t, v = VStr t /\ r !! "text_length" = Some (VInt (PyStr.len t)).
Proof.
  intros Hr v Hv.
  assert (consistent_length r \/ r !! "text" = None) as [(t & H1 & H2)|Hn].
  { destruct Hr as [html url r H|data source r H|url timeout_sec w r w' H].
    - left. eapply html_content_consistent, H.
    - left. eapply file_content_consistent, H.
    - unfold crawl_url in H. destruct (_download _ _ _ _ _) as [[resp|e] w0]; [|discriminate].
      destruct (negb _ && negb _).
      + right. injection H as <- _. unfold dict; simpl. now simplify_map_eq.
      + left. injection H as H _. eapply html_content_consistent, H. }
  - exists t. split; [congruence|assumption].
  - congruence.
Qed.

End Records.

(** The theorem at the text file [notes.txt] holding [a  b]. *)
Lemma text_length_is_len_text_witness :
  exists t,
    VStr "a b" = VStr t
    /\ dict [("type", VStr "text"); ("source", VStr "notes.txt");
             ("text", VStr "a b"); ("text_length", VInt 3)] !! "text_length"
       = Some (VInt (PyStr.len t)).
Proof.
  apply (text_length_is_len_text (table_parser []) strict_css sample_urljoin
           no_document no_document sample_decode unit
           (fun _ _ w => (Raises (Exception "ConnectionError" "offline"), w))).
  - apply (from_file _ _ _ _ _ _ _ _ (list_byte_of_string "a  b") "notes.txt").
    reflexivity.
  - unfold dict; simpl. now simplify_map_eq.
Defined.

(** ** The general page extractor: title and description *)

(** C3, as stated, fails: on a page with both elements the [title]
    field is the text of [<title>], not that of [<h1>]. *)
Lemma title_takes_title_element_first :
  exists r,
    _extract_html_content (table_parser [(titled_page, titled_soup)]) strict_css
      sample_urljoin titled_page "https://a.example/" = Returns r
    /\ r !! "title" = Some (VStr "Site")
    /\ first_non_empty [element_text "h1" titled_soup;
                        element_text "title" titled_soup] = "Welcome".
Proof.
  exists (page_record titled_soup "https://a.example/" []).
  split; [reflexivity|]. split; [|reflexivity].
  unfold page_record, dict; simpl. now simplify_map_eq.
Qed.

(** C3, amended.  For every HTML input, the [title] field of the record
    the extractor returns is the first non-empty value of, in this
    order: the text of the [<title>] element, then the text of the
    [<h1>] element. *)
Theorem title_is_title_then_h1 BeautifulSoup css urljoin html url r :
  _extract_html_content BeautifulSoup css urljoin html url = Returns r ->
  r !! "title"
  = Some (VStr (first_non_empty [element_text "title" (BeautifulSoup html);
                                 element_text "h1" (BeautifulSoup html)])).
Proof.
  intros (links & _ & ->)%extract_html_content_returns.
  destruct (page_record_fields (BeautifulSoup html) url links) as (_ & _ & Ht & _).
  now rewrite Ht, or_else_first_non_empty.
Qed.

(** The theorem on the page with both a title and a heading. *)
Lemma title_is_title_then_h1_witness :
  page_record titled_soup "https://a.example/" [] !! "title"
  = Some (VStr (first_non_empty [element_text "title" titled_soup;
                                 element_text "h1" titled_soup])).
Proof.
  apply (title_is_title_then_h1 (table_parser [(titled_page, titled_soup)]) strict_css
           sample_urljoin titled_page "https://a.example/").
  reflexivity.
Defined.

(** C4, as stated, fails: on a page with both metas the [description]
    field is the content of the [description] meta name, not that of the
    [og:description] meta property. *)
Lemma description_takes_meta_name_first :
  exists r,
    _extract_html_content (table_parser [(described_page, described_soup)]) strict_css
      sample_urljoin described_page "https://a.example/" = Returns r
    /\ r !! "description" = Some (VStr "Plain")
    /\ first_non_empty [_extract_meta described_soup "og:description" "property";
                        _extract_meta described_soup "description" "name"] = "Shared".
Proof.
  exists (page_record described_soup "https://a.example/" []).
  split; [reflexivity|]. split; [|vm_compute; reflexivity].
  unfold page_record, dict; simpl. simplify_map_eq. vm_compute. reflexivity.
Qed.

(** C4, amended.  For every HTML input, the [description] field of the
    record the extractor returns is the first non-empty value of, in
    this order: the content of the [description] meta name, then the
    content of the [og:description] meta property. *)
Theorem description_is_name_then_og BeautifulSoup css urljoin html url r :
  _extract_html_content BeautifulSoup css urljoin html url = Returns r ->
  r !! "description"
  = Some (VStr (first_non_empty
                  [_extract_meta (BeautifulSoup html) "description" "name";
                   _extract_meta (BeautifulSoup html) "og:description" "property"])).
Proof.
  intros (links & _ & ->)%extract_html_content_returns.
  destruct (page_record_fields (BeautifulSoup html) url links) as (_ & _ & _ & Hd & _).
  now rewrite Hd, or_else_first_non_empty.
Qed.

(** The theorem on the page with both description metas. *)
Lemma description_is_name_then_og_witness :
  page_record described_soup "https://a.example/" [] !! "description"
  = Some (VStr (first_non_empty
                  [_extract_meta described_soup "description" "name";
                   _extract_meta described_soup "og:description" "property"])).
Proof.
  apply (description_is_name_then_og (table_parser [(described_page, described_soup)])
           strict_css sample_urljoin described_page "https://a.example/").
  reflexivity.
Defined.

(** ** The tool-detail page extractor *)


Lemma first_non_empty_truthy l :
  PyStr.truthy (first_non_empty l) = false <-> first_non_empty l = EmptyString.
Proof. apply truthy_false. Qed.



(** A page with a description and no optional section is accepted. *)
Example bare_tool_page_is_accepted :
  exists r,
    _parse_tool_page (table_parser [(bare_page, bare_soup)]) strict_css bare_page ∅
      "https://www.futurepedia.io/tool/bare" = Returns r
    /\ r !! "description" = Some (VStr "Bare")
    /\ r !! "what_is" = Some (VStr EmptyString)
    /\ r !! "key_features" = Some (VList [])
    /\ r !! "pros" = Some (VList [])
    /\ r !! "cons" = Some (VList [])
    /\ r !! "who_uses" = Some (VStr EmptyString).
Proof.
  eexists. split; [reflexivity|].
  unfold dict; simpl. repeat split; simplify_map_eq; vm_compute; reflexivity.
Qed.

(** *** The "what is" section *)



(** Where the section holds no list, the narrative rule gives the same. *)
Lemma section_text_scan_without_lists sibs parts :
  forallb (fun s => negb (name_in ["ul"; "ol"] s)) (until_heading sibs) = true ->
  section_text_scan sibs parts = what_is_scan sibs parts.
Proof.
  revert parts. induction sibs as [|sib rest IH]; intros parts; simpl; [reflexivity|].
  destruct (name_in headings sib); [reflexivity|]. simpl.
  intros [Hl Hr]%andb_prop. apply negb_true_iff in Hl. rewrite Hl.
  now apply IH.
Qed.



(** On a section without lists, [what_is] is what the narrative-section
    rule gives for the label "what is". *)
Lemma what_is_matches_narrative_rule_without_lists soup :
  match first_heading "what is" soup with
  | Some (_, sibs) =>
      forallb (fun s => negb (name_in ["ul"; "ol"] s)) (until_heading sibs) = true
  | None => True
  end ->
  _extract_what_is soup = _extract_section_text soup "what is".
Proof.
  unfold _extract_what_is, _extract_section_text, first_heading.
  change (PyStr.lower (PyStr.strip "what is")) with "what is".
  induction (heading_entries soup) as [|[h sibs] rest IH]; simpl; [reflexivity|].
  destruct (PyStr.startswith _ _); simpl; [|exact IH].
  intros H. now rewrite section_text_scan_without_lists.
Qed.

(** ** The links of a page *)

Lemma filter_filter_ext {A} (f g h : A -> bool) (l : list A) :
  (forall x, h x = g x && f x) ->
  List.filter f (List.filter g l) = List.filter h l.
Proof.
  intros E. induction l as [|x l IH]; simpl; [reflexivity|].
  rewrite E. destruct (g x); simpl; [|exact IH].
  destruct (f x); now rewrite IH.
Qed.

Lemma unseen_insert seen href y :
  unseen ({[href]} ∪ seen) y = negb (String.eqb y href) && unseen seen y.
Proof.
  unfold unseen. destruct (String.eqb_spec y href) as [->|Hne]; simpl.
  - rewrite bool_decide_eq_true_2; [reflexivity|].
    apply elem_of_union_l, elem_of_singleton. reflexivity.
  - f_equal. apply bool_decide_ext.
    rewrite elem_of_union, elem_of_singleton. tauto.
Qed.

Lemma unseen_absorbs seen href y :
  href ∈ seen -> unseen seen y = negb (String.eqb y href) && unseen seen y.
Proof.
  intros Hin. destruct (String.eqb_spec y href) as [->|Hne]; simpl; [|reflexivity].
  unfold unseen. now rewrite bool_decide_eq_true_2.
Qed.

Ltac step_bind :=
  change (mbind ?k (Returns ?a)) with (k a); cbv beta.

(** A state of the loop one new link further. *)
Lemma links_step (links : list string) href (rest : list string) :
  (length links < 50)%nat ->
  length (links ++ [href]) = S (length links)
  /\ links ++ firstn (50 - length links) (href :: rest)
     = (links ++ [href]) ++ firstn (50 - S (length links)) rest.
Proof.
  intros Hlen. split; [rewrite length_app; simpl; lia|].
  replace (50 - length links)%nat with (S (50 - S (length links))) by lia.
  cbn [firstn]. now rewrite <- app_assoc.
Qed.

(** What the loop returns, from any state that holds fewer than fifty
    links: the references it read, a prefix of the list, all resolved. *)
Lemma links_loop_returns urljoin url hrefs :
  forall links seen out,
    (length links < 50)%nat ->
    links_loop urljoin url hrefs links seen = Returns out ->
    exists k resolved,
      resolve_all urljoin url (firstn k hrefs) = Returns resolved
      /\ out = links ++ firstn (50 - length links)
                         (List.filter (unseen seen) (first_occurrences resolved))
      /\ (k = length hrefs \/ length out = 50%nat).
Proof.
  induction hrefs as [|h rest IH]; intros links seen out Hlen.
  - intros [= <-]. exists 0%nat, []. simpl.
    destruct (50 - length links)%nat; rewrite app_nil_r; auto.
  - cbn [links_loop]. destruct (urljoin url h) as [href|e] eqn:E; [|discriminate].
    step_bind. destruct (links_step links href [] Hlen) as [Hl _].
    destruct (decide (href ∈ seen)) as [Hin|Hnin].
    + intros H. destruct (IH _ _ _ Hlen H) as (k & resolved & Hr & -> & Hk).
      exists (S k), (href :: resolved). cbn [firstn resolve_all]. rewrite E. step_bind.
      rewrite Hr. step_bind. split; [reflexivity|]. split.
      * cbn [first_occurrences List.filter]. unfold unseen at 2.
        rewrite bool_decide_eq_true_2 by exact Hin. cbn [negb].
        f_equal. f_equal. symmetry. apply filter_filter_ext.
        intros y. now apply unseen_absorbs.
      * destruct Hk as [->|Hk]; [now left|now right].
    + rewrite Hl. destruct (Nat.leb_spec 50 (S (length links))) as [Hge|Hlt].
      * intros [= <-]. exists 1%nat, [href]. cbn [firstn resolve_all]. rewrite E.
        step_bind. split; [reflexivity|]. cbn [first_occurrences List.filter].
        unfold unseen. rewrite bool_decide_eq_false_2 by exact Hnin. cbn [negb].
        replace (50 - length links)%nat with 1%nat by lia.
        split; [reflexivity|]. right. rewrite Hl. lia.
      * intros H. destruct (IH _ _ _ ltac:(rewrite Hl; lia) H)
          as (k & resolved & Hr & -> & Hk).
        exists (S k), (href :: resolved). cbn [firstn resolve_all]. rewrite E. step_bind.
        rewrite Hr. step_bind. split; [reflexivity|]. split.
        -- cbn [first_occurrences List.filter]. unfold unseen at 2.
           rewrite bool_decide_eq_false_2 by exact Hnin. cbn [negb].
           rewrite Hl. destruct (links_step links href
             (List.filter (unseen seen)
                (List.filter (fun y => negb (String.eqb y href))
                   (first_occurrences resolved))) Hlen) as [_ ->].
           f_equal. f_equal. symmetry. apply filter_filter_ext.
           intros y. apply unseen_insert.
        -- destruct Hk as [->|Hk]; [now left|now right].
Qed.

(** When every reference resolves, the loop returns. *)
Lemma links_loop_resolved urljoin url hrefs :
  forall resolved links seen,
    (length links < 50)%nat ->
    resolve_all urljoin url hrefs = Returns resolved ->
    links_loop urljoin url hrefs links seen =
    Returns (links ++ firstn (50 - length links)
                        (List.filter (unseen seen) (first_occurrences resolved))).
Proof.
  induction hrefs as [|h rest IH]; intros resolved links seen Hlen.
  - intros [= <-]. simpl. destruct (50 - length links)%nat; now rewrite app_nil_r.
  - cbn [links_loop resolve_all].
    destruct (urljoin url h) as [href|e] eqn:E; [|discriminate]. step_bind.
    destruct (resolve_all urljoin url rest) as [others|e] eqn:Er; [|discriminate].
    step_bind. intros [= <-]. destruct (links_step links href [] Hlen) as [Hl _].
    cbn [first_occurrences List.filter].
    destruct (decide (href ∈ seen)) as [Hin|Hnin].
    + rewrite (IH _ _ _ Hlen eq_refl). unfold unseen at 2.
      rewrite bool_decide_eq_true_2 by exact Hin. cbn [negb].
      f_equal. f_equal. f_equal. symmetry. apply filter_filter_ext.
      intros y. now apply unseen_absorbs.
    + unfold unseen at 1. rewrite bool_decide_eq_false_2 by exact Hnin. cbn [negb].
      rewrite Hl.
      destruct (links_step links href
        (List.filter (unseen seen)
           (List.filter (fun y => negb (String.eqb y href)) (first_occurrences others)))
        Hlen) as [_ ->].
      destruct (Nat.leb_spec 50 (S (length links))) as [Hge|Hlt].
      * replace (50 - S (length links))%nat with 0%nat by lia.
        cbn [firstn]. now rewrite app_nil_r.
      * rewrite (IH _ _ _ ltac:(rewrite Hl; lia) eq_refl), Hl.
        f_equal. f_equal. f_equal. symmetry. apply filter_filter_ext.
        intros y. apply unseen_insert.
Qed.


Lemma filter_unseen_empty l : List.filter (unseen ∅) l = l.
Proof.
  induction l as [|x l IH]; simpl; [reflexivity|].
  unfold unseen at 1. rewrite bool_decide_eq_false_2 by apply not_elem_of_empty.
  simpl. now rewrite IH.
Qed.

Lemma first_occurrences_In x l : In x (first_occurrences l) <-> In x l.
Proof.
  induction l as [|y l IH]; simpl; [reflexivity|].
  rewrite filter_In, IH. destruct (String.eqb_spec x y) as [->|Hne]; simpl.
  - split; auto.
  - split; [intros [?|[? _]]; auto|intros [?|?]; auto].
Qed.

Lemma first_occurrences_NoDup l : List.NoDup (first_occurrences l).
Proof.
  induction l as [|y l IH]; simpl; constructor.
  - rewrite filter_In. intros [_ H]. now rewrite String.eqb_refl in H.
  - now apply List.NoDup_filter.
Qed.

Lemma firstn_In {A} n (l : list A) x : In x (firstn n l) -> In x l.
Proof.
  intros H. rewrite <- (firstn_skipn n l). apply in_or_app. now left.
Qed.

Lemma firstn_NoDup {A} n (l : list A) : List.NoDup l -> List.NoDup (firstn n l).
Proof.
  intros H. rewrite <- (firstn_skipn n l) in H. eapply List.NoDup_app_remove_r, H.
Qed.

(** C2, as stated, fails: an anchor inside a [noscript] element (or a
    [script], [style] or [iframe] one) is removed before the links are
    read, and its [href] is not listed. *)
Lemma links_omit_removed_anchors :
  anchor_hrefs noscript_soup = ["https://b.example/x"]
  /\ sample_urljoin "https://a.example/" "https://b.example/x"
     = Returns "https://b.example/x"
  /\ exists r,
       _extract_html_content (table_parser [(noscript_page, noscript_soup)]) strict_css
         sample_urljoin noscript_page "https://a.example/" = Returns r
       /\ r !! "links" = Some (VList []).
Proof.
  split; [vm_compute; reflexivity|]. split; [vm_compute; reflexivity|].
  exists (page_record noscript_soup "https://a.example/" []).
  split; [reflexivity|]. unfold page_record, dict; simpl. now simplify_map_eq.
Qed.

(** C2, amended.  For every HTML input, the [links] of the record the
    extractor returns come from the [href] values of the anchors left
    once the [script], [style], [noscript] and [iframe] elements are
    removed: the loop reads them in order, resolves each against the
    origin with [urljoin], and stops at the end of the list or at the
    fiftieth link; the links are the resolved references in order of
    first appearance, without duplicates and at most 50.  When every
    such [href] resolves, they are the first 50 distinct resolved
    references of the whole list, however many anchors there are. *)
Theorem links_are_first_fifty_distinct BeautifulSoup css urljoin html url r :
  _extract_html_content BeautifulSoup css urljoin html url = Returns r ->
  let hrefs := anchor_hrefs (pruned (BeautifulSoup html)) in
  exists links k resolved,
    r !! "links" = Some (strs links)
    /\ resolve_all urljoin url (firstn k hrefs) = Returns resolved
    /\ links = firstn 50 (first_occurrences resolved)
    /\ (k = length hrefs \/ length links = 50%nat)
    /\ List.NoDup links
    /\ (length links <= 50)%nat
    /\ (forall all, resolve_all urljoin url hrefs = Returns all ->
                    links = firstn 50 (first_occurrences all)).
Proof.
  intros (links & Hloop & ->)%extract_html_content_returns. cbv zeta.
  assert (length (@nil string) < 50)%nat as Hz by (simpl; lia).
  destruct (links_loop_returns _ _ _ _ _ _ Hz Hloop)
    as (k & resolved & Hr & Hout & Hk).
  simpl in Hout. rewrite filter_unseen_empty in Hout.
  exists links, k, resolved.
  destruct (page_record_fields (BeautifulSoup html) url links)
    as (_ & _ & _ & _ & _ & _ & Hlinks & _).
  split; [exact Hlinks|]. split; [exact Hr|]. split; [exact Hout|].
  split; [exact Hk|]. subst links.
  split; [apply firstn_NoDup, first_occurrences_NoDup|].
  split; [apply firstn_le_length|].
  intros all Hall.
  pose proof (links_loop_resolved _ _ _ _ [] ∅ Hz Hall) as Hloop'.
  rewrite Hloop in Hloop'. injection Hloop' as ->.
  simpl. now rewrite filter_unseen_empty.
Qed.

(** The theorem on a page with the same link twice and another one. *)
Lemma links_are_first_fifty_distinct_witness :
  let hrefs := anchor_hrefs (pruned linked_soup) in
  exists links k resolved,
    page_record linked_soup "https://a.example/" ["https://a.example/x"; "https://b.example/"]
      !! "links" = Some (strs links)
    /\ resolve_all sample_urljoin "https://a.example/" (firstn k hrefs) = Returns resolved
    /\ links = firstn 50 (first_occurrences resolved)
    /\ (k = length hrefs \/ length links = 50%nat)
    /\ List.NoDup links
    /\ (length links <= 50)%nat
    /\ (forall all, resolve_all sample_urljoin "https://a.example/" hrefs = Returns all ->
                    links = firstn 50 (first_occurrences all)).
Proof.
  apply (links_are_first_fifty_distinct (table_parser [(linked_page, linked_soup)])
           strict_css sample_urljoin linked_page "https://a.example/").
  reflexivity.
Defined.

(** ** Structured extraction *)

(** C5, as stated, fails twice: the text of a scalar field keeps the
    white space inside a text node (it is stripped, not collapsed), and
    a list selector with more than one element is evaluated on its first
    element instead of giving a null value. *)
Lemma selector_text_and_long_lists :
  extract_structured (table_parser [(spaced_page, spaced_soup)]) strict_css unit
    (serve_page spaced_page) (table_json [(sample_schema_json, sample_schema)])
    "https://a.example/" sample_schema_json 30 tt
  = (Returns (dict [("url", VStr "https://a.example/");
                    ("fields", VDict (dict [("title", VStr "Big  News");
                                            ("items", VList [VStr "one"])]))]), tt)
  /\ _clean_text "Big  News" = "Big News".
Proof. split; vm_compute; reflexivity. Qed.

(** C5, amended.  For every schema field: a plain-string selector
    yields the text of the first match, its text nodes stripped and
    joined by single spaces (white space inside a text node is kept), or
    the empty string when nothing matches; a list whose first element is
    a string, whatever follows it, yields the texts of all matches of
    that first element, the empty ones left out; every other shape
    yields a null value and never raises; the extractor raises on a
    field only when the selector engine rejects the selector string. *)
Theorem field_value_by_selector_shape css soup :
  (forall s els,
      select css s soup = Returns els ->
      extract_field css soup (JString s) = Returns (VStr (first_text els)))
  /\ (forall s rest els,
         select css s soup = Returns els ->
         extract_field css soup (JArray (JString s :: rest)) = Returns (strs (texts els)))
  /\ (forall selector,
         other_shape selector -> extract_field css soup selector = Returns VNone)
  /\ (forall selector e,
         extract_field css soup selector = Raises e ->
         exists s, (selector = JString s \/ exists rest, selector = JArray (JString s :: rest))
                   /\ select css s soup = Raises e).
Proof.
  repeat split.
  - intros s els H. unfold extract_field, _extract_text. now rewrite H.
  - intros s rest els H. unfold extract_field. now rewrite H.
  - intros selector H. destruct selector as [| | | |[|[]]|]; simpl in H;
      try contradiction; reflexivity.
  - intros selector e H.
    destruct selector as [| | |s|[|[| | |s| |] rest]|]; simpl in H; try discriminate.
    + exists s. split; [now left|]. unfold _extract_text in H.
      destruct (select css s soup); simpl in H; congruence.
    + exists s. split; [right; now exists rest|].
      destruct (select css s soup); simpl in H; congruence.
Qed.

(** The theorem on the sample page: a scalar field, a list field with
    two elements, and a number used as a selector. *)
Lemma field_value_by_selector_shape_witness :
  extract_field strict_css spaced_soup (JString "h1") = Returns (VStr "Big  News")
  /\ extract_field strict_css spaced_soup (JArray [JString "p"; JString "h1"])
     = Returns (VList [VStr "one"])
  /\ extract_field strict_css spaced_soup (JNumber 7) = Returns VNone.
Proof.
  pose proof (field_value_by_selector_shape strict_css spaced_soup) as (H1 & H2 & H3 & _).
  split; [|split].
  - exact (H1 "h1" _ eq_refl).
  - exact (H2 "p" [JString "h1"] _ eq_refl).
  - exact (H3 (JNumber 7) I).
Defined.

(** *** The loop over the schema *)




(** ** The sitemap extractor *)

Lemma endswith_app suf pre : PyStr.endswith suf (pre ++ suf)%string = true.
Proof.
  induction pre as [|c pre IH]; simpl.
  - destruct suf as [|a suf]; [reflexivity|].
    change (String.eqb (String a suf) (String a suf)
            || PyStr.endswith (String a suf) suf = true).
    now rewrite String.eqb_refl.
  - rewrite IH. apply orb_true_r.
Qed.

Lemma after_brace_suffix t l :
  after_brace t = Some l -> exists pre, t = (pre ++ l)%string.
Proof.
  revert l. induction t as [|c r IH]; intros l; simpl; [discriminate|].
  destruct (after_brace r) as [l'|].
  - intros [= <-]. destruct (IH l' eq_refl) as [pre ->].
    now exists (String c pre).
  - destruct (Ascii.eqb c "}"); [|discriminate].
    intros [= <-]. now exists (String c EmptyString).
Qed.

Lemma local_name_endswith t suf :
  local_name t = suf -> PyStr.endswith suf t = true.
Proof.
  unfold local_name. destruct (after_brace t) as [l|] eqn:E; simpl; intros <-.
  - destruct (after_brace_suffix t l E) as [pre ->]. apply endswith_app.
  - apply (endswith_app t EmptyString).
Qed.

Lemma is_loc_collected e : is_loc e = true -> collected e = true.
Proof.
  unfold is_loc, collected. intros [Hn Ht]%andb_prop.
  apply String.eqb_eq, local_name_endswith in Hn. now rewrite Hn, Ht.
Qed.

Lemma sitemap_loop_collected nodes urls :
  sitemap_loop nodes urls
  = urls ++ List.map stripped_text (List.filter collected nodes).
Proof.
  revert urls. induction nodes as [|e rest IH]; intros urls; simpl.
  - now rewrite app_nil_r.
  - fold (collected e). destruct (collected e); rewrite IH; simpl; [|reflexivity].
    now rewrite <- app_assoc.
Qed.

Lemma filter_map_sublist {A B} (f : A -> B) (p q : A -> bool) (l : list A) :
  (forall x, p x = true -> q x = true) ->
  sublist (List.map f (List.filter p l)) (List.map f (List.filter q l)).
Proof.
  intros Hpq. induction l as [|x l IH]; simpl; [constructor|].
  destruct (p x) eqn:Hp.
  - rewrite (Hpq x Hp). simpl. now constructor.
  - destruct (q x); simpl; [now constructor|exact IH].
Qed.

Lemma clamp_limit_range limit : 1 <= clamp_limit limit <= 200.
Proof. unfold clamp_limit. lia. Qed.

(** C6, as stated, fails: an element whose name only ends in [loc] is
    collected, and a [loc] element without text is not. *)
Lemma sitemap_collects_by_tag_ending :
  crawl_sitemap unit (serve_page geo_sitemap) (table_xml [(geo_sitemap, geo_tree)])
    "https://a/sitemap.xml" 20 30 tt
  = (Returns (dict [("sitemap_url", VStr "https://a/sitemap.xml");
                    ("total_urls", VInt 2);
                    ("urls", VList [VStr "https://a/1"; VStr "Paris"])]), tt)
  /\ List.map (fun e => local_name (PyStr.lower (tag_of e))) (iter geo_tree)
     = ["urlset"; "url"; "loc"; "geoloc"; "url"; "loc"].
Proof. split; vm_compute; reflexivity. Qed.

(** C6, amended.  For every well-formed XML sitemap the extractor
    returns; [total_urls] is the number of texts found and [urls] their
    prefix of length min(clamped limit, total), the limit clamped to
    [1, 200].  The texts found hold, in document order, the stripped text
    of every element whose namespace-stripped name is [loc], case apart,
    and whose text is not empty (a [loc] without text is skipped); on a
    sitemap where no other tag ends in [loc] they are exactly those. *)
Theorem sitemap_lists_loc_texts (world : Type)
    (http_get : string -> Z -> world -> result response * world)
    (fromstring : list Byte.byte -> result element)
    sitemap_url limit timeout_sec w r w' root :
  _download world http_get sitemap_url timeout_sec w = (Returns r, w') ->
  fromstring (content r) = Returns root ->
  let found := sitemap_loop (iter root) [] in
  let urls := firstn (Z.to_nat (clamp_limit limit)) found in
  crawl_sitemap world http_get fromstring sitemap_url limit timeout_sec w
  = (Returns (dict [("sitemap_url", VStr sitemap_url);
                    ("total_urls", VInt (Z.of_nat (length found)));
                    ("urls", strs urls)]), w')
  /\ 1 <= clamp_limit limit <= 200
  /\ length urls = Nat.min (Z.to_nat (clamp_limit limit)) (length found)
  /\ sublist (loc_texts root) found
  /\ ((forall e, In e (iter root) ->
         PyStr.endswith "loc" (PyStr.lower (tag_of e)) = true ->
         local_name (PyStr.lower (tag_of e)) = "loc") ->
      found = loc_texts root).
Proof.
  intros Hd Hx. cbv zeta. unfold crawl_sitemap. rewrite Hd, Hx.
  split; [reflexivity|]. split; [apply clamp_limit_range|].
  split; [apply length_firstn|].
  rewrite sitemap_loop_collected. simpl. unfold loc_texts. split.
  - apply filter_map_sublist, is_loc_collected.
  - intros Hloc. f_equal. apply filter_ext_in. intros e He.
    unfold collected, is_loc.
    destruct (PyStr.endswith _ _) eqn:E; simpl.
    + now rewrite (Hloc e He E).
    + destruct (String.eqb_spec (local_name (PyStr.lower (tag_of e))) "loc") as [Hn|];
        [|reflexivity].
      apply local_name_endswith in Hn. congruence.
Qed.

(** The theorem on the design document's example: two locations, limit 1. *)
Lemma sitemap_lists_loc_texts_witness :
  crawl_sitemap unit (serve_page two_url_sitemap)
    (table_xml [(two_url_sitemap, two_url_tree)]) "https://a/sitemap.xml" 1 30 tt
  = (Returns (dict [("sitemap_url", VStr "https://a/sitemap.xml");
                    ("total_urls", VInt 2);
                    ("urls", VList [VStr "https://a/1"])]), tt)
  /\ loc_texts two_url_tree = ["https://a/1"; "https://a/2"].
Proof.
  pose proof (sitemap_lists_loc_texts unit (serve_page two_url_sitemap)
                (table_xml [(two_url_sitemap, two_url_tree)])
                "https://a/sitemap.xml" 1 30 tt _ tt two_url_tree
                eq_refl eq_refl) as (H1 & _ & _ & _ & _).
  split; [exact H1|reflexivity].
Defined.

(** ** Batch crawl *)

Section Batch.

Context (BeautifulSoup : string -> node)
        (css : string -> node -> result (list node))
        (urljoin : string -> string -> result string)
        (world : Type)
        (http_get : string -> Z -> world -> result response * world).

Local Abbreviation fetch_page := (crawl_url BeautifulSoup css urljoin world http_get).
Local Abbreviation batch_loop :=
  (crawl_many_loop BeautifulSoup css urljoin world http_get).
Local Abbreviation trace := (batch_trace BeautifulSoup css urljoin world http_get).

Lemma crawl_many_loop_trace urls timeout_sec :
  forall results w,
  exists records w',
    batch_loop urls timeout_sec results w = (results ++ records, w')
    /\ trace timeout_sec w urls records w'.
Proof.
  induction urls as [|url rest IH]; intros results w; simpl.
  - exists [], w. rewrite app_nil_r. split; [reflexivity|constructor].
  - destruct (fetch_page url timeout_sec w) as [[r|exc] w1] eqn:E.
    + destruct (IH (results ++ [r]) w1) as (records & w' & -> & Ht).
      exists (r :: records), w'. rewrite <- app_assoc. split; [reflexivity|].
      econstructor; eassumption.
    + destruct (IH (results ++ [dict [("type", VStr "error"); ("url", VStr url);
                                      ("error", VStr (exn_str exc))]]) w1)
        as (records & w' & -> & Ht).
      eexists (_ :: records), w'. rewrite <- app_assoc. split; [reflexivity|].
      eapply batch_error; eassumption.
Qed.

Lemma batch_trace_length timeout_sec w urls records w' :
  trace timeout_sec w urls records w' -> length records = length urls.
Proof. induction 1; simpl; congruence. Qed.

Lemma crawl_url_record_url url timeout_sec w r w' :
  fetch_page url timeout_sec w = (Returns r, w') -> r !! "url" = Some (VStr url).
Proof.
  unfold crawl_url. destruct (_download _ _ _ _ _) as [[resp|e] w0]; [|discriminate].
  destruct (negb _ && negb _).
  - intros [= <- _]. unfold dict; simpl. now simplify_map_eq.
  - intros [= H _]. apply extract_html_content_returns in H as (links & _ & ->).
    apply page_record_fields.
Qed.

Lemma batch_trace_urls timeout_sec w urls records w' :
  trace timeout_sec w urls records w' ->
  List.map (fun r : gmap string value => r !! "url") records
  = List.map (fun u => Some (VStr u)) urls.
Proof.
  induction 1 as [|w url r w1 urls records w2 H _ IH|w url exc w1 urls records w2 H _ IH];
    cbn [List.map]; [reflexivity| |]; rewrite IH; f_equal.
  eapply crawl_url_record_url, H.
Qed.

(** C7.  For every list of URLs the batch crawl returns: it never
    raises as a whole.  Its records follow the crawled URLs one by one;
    where the crawl of a URL raises, the record is an [error] record
    carrying that URL and the message, and the crawl goes on with the
    next URL from the state the failed one left. *)
Theorem crawl_many_isolates_failures urls timeout_sec w :
  exists records w',
    crawl_many BeautifulSoup css urljoin world http_get urls timeout_sec w
    = (Returns records, w')
    /\ batch_trace BeautifulSoup css urljoin world http_get timeout_sec w
         (firstn 20 urls) records w'.
Proof.
  unfold crawl_many.
  destruct (crawl_many_loop_trace (firstn 20 urls) timeout_sec [] w)
    as (records & w' & -> & Ht).
  exists records, w'. split; [reflexivity|exact Ht].
Qed.

(** C10.  For every list of URLs the batch crawl returns
    min(number of URLs, 20) records, the i-th one carrying the i-th URL;
    the URLs past the twentieth are not read: any list with the same
    first twenty URLs gives the same records and leaves the network in
    the same state. *)
Theorem crawl_many_reads_first_twenty urls timeout_sec w :
  exists records w',
    crawl_many BeautifulSoup css urljoin world http_get urls timeout_sec w
    = (Returns records, w')
    /\ length records = Nat.min (length urls) 20
    /\ List.map (fun r : gmap string value => r !! "url") records
       = List.map (fun u => Some (VStr u)) (firstn 20 urls)
    /\ (forall others,
           firstn 20 others = firstn 20 urls ->
           crawl_many BeautifulSoup css urljoin world http_get others timeout_sec w
           = (Returns records, w')).
Proof.
  unfold crawl_many.
  destruct (crawl_many_loop_trace (firstn 20 urls) timeout_sec [] w)
    as (records & w' & Hb & Ht).
  exists records, w'. rewrite Hb. split; [reflexivity|]. split; [|split].
  - rewrite (batch_trace_length _ _ _ _ _ Ht), length_firstn. lia.
  - eapply batch_trace_urls, Ht.
  - intros others Ho. now rewrite Ho, Hb.
Qed.

End Batch.

(** The design document's example: a page that is served and a URL that
    cannot be fetched give one [html] record and one [error] record. *)
Example batch_of_valid_and_invalid :
  crawl_many (table_parser [(titled_page, titled_soup)]) strict_css sample_urljoin
    nat one_host_network ["https://valid.example"; "not a url"] 30 0%nat
  = (Returns [dict [("type", VStr "html"); ("url", VStr "https://valid.example");
                    ("title", VStr "Site"); ("description", VStr EmptyString);
                    ("text", VStr "Welcome"); ("text_length", VInt 7);
                    ("links", VList [])];
              dict [("type", VStr "error"); ("url", VStr "not a url");
                    ("error", VStr "Failed to establish a new connection")]],
     2%nat).
Proof. vm_compute. reflexivity. Qed.

(** * Further properties of the module *)

Set Warnings "-clear-no-such-hyp".

(** ** White space *)

Lemma lstrip_starts s : starts_white (PyStr.lstrip s) = false.
Proof.
  induction s as [|c r IH]; simpl; [reflexivity|].
  destruct (PyStr.is_space c) eqn:E; [exact IH|]. simpl. exact E.
Qed.

Lemma rstrip_ends s : ends_white (PyStr.rstrip s) = false.
Proof.
  induction s as [|c r IH]; simpl; [reflexivity|].
  destruct (PyStr.rstrip r) as [|d r'] eqn:E.
  - destruct (PyStr.is_space c) eqn:Ec; simpl; [reflexivity|exact Ec].
  - exact IH.
Qed.

Lemma rstrip_starts s : starts_white s = false -> starts_white (PyStr.rstrip s) = false.
Proof.
  destruct s as [|c r]; simpl; [reflexivity|]. intros Hc.
  destruct (PyStr.rstrip r); [rewrite Hc|]; simpl; exact Hc.
Qed.

Lemma rstrip_starts_inv s : starts_white (PyStr.rstrip s) = true -> starts_white s = true.
Proof.
  destruct s as [|c r]; simpl; [discriminate|].
  destruct (PyStr.rstrip r); [|trivial].
  destruct (PyStr.is_space c) eqn:E; [reflexivity|].
  simpl. now rewrite E.
Qed.

Lemma lstrip_spaced s : spaced s = true -> spaced (PyStr.lstrip s) = true.
Proof.
  induction s as [|c r IH]; simpl; [reflexivity|].
  intros [_ Hr]%andb_prop.
  destruct (PyStr.is_space c) eqn:E; [now apply IH|].
  simpl. now rewrite E, Hr.
Qed.

Lemma rstrip_spaced s : spaced s = true -> spaced (PyStr.rstrip s) = true.
Proof.
  induction s as [|c r IH]; [reflexivity|].
  intros H. cbn [spaced] in H. apply andb_prop in H as [Hc Hr].
  specialize (IH Hr). cbn [PyStr.rstrip].
  destruct (PyStr.rstrip r) as [|d r'] eqn:E.
  - destruct (PyStr.is_space c) eqn:Ec; simpl; [reflexivity|now rewrite Ec].
  - change (spaced (String c (String d r')))
      with ((if PyStr.is_space c
             then Ascii.eqb c " " && negb (starts_white (String d r'))
             else true) && spaced (String d r')).
    rewrite IH, andb_true_r.
    destruct (PyStr.is_space c); [|reflexivity].
    apply andb_prop in Hc as [Hc1 Hc2]. rewrite Hc1.
    destruct (starts_white (String d r')) eqn:Es; [|reflexivity].
    rewrite <- E in Es. apply rstrip_starts_inv in Es.
    now rewrite Es in Hc2.
Qed.

Lemma sub_spaces_spaced t :
  forall in_run,
    spaced (PyStr.sub_spaces in_run t) = true
    /\ (in_run = true -> starts_white (PyStr.sub_spaces in_run t) = false).
Proof.
  induction t as [|c r IH]; intros in_run; simpl; [now split|].
  destruct (PyStr.is_space c) eqn:E.
  - destruct in_run.
    + apply IH.
    + split; [|discriminate]. simpl.
      destruct (IH true) as [H1 H2]. now rewrite H1, H2.
  - split.
    + simpl. rewrite E. apply IH.
    + intros _. simpl. exact E.
Qed.

Lemma strip_trimmed s : trimmed (PyStr.strip s) = true.
Proof.
  unfold trimmed, PyStr.strip.
  now rewrite rstrip_starts, rstrip_ends by apply lstrip_starts.
Qed.

Lemma lstrip_fixed s : starts_white s = false -> PyStr.lstrip s = s.
Proof. destruct s as [|c r]; simpl; [reflexivity|]. now intros ->. Qed.

Lemma rstrip_fixed s : ends_white s = false -> PyStr.rstrip s = s.
Proof.
  induction s as [|c r IH]; [reflexivity|].
  intros H. cbn [PyStr.rstrip]. destruct r as [|d r'].
  - simpl in *. now rewrite H.
  - change (ends_white (String d r') = false) in H. now rewrite (IH H).
Qed.

Lemma strip_fixed s : trimmed s = true -> PyStr.strip s = s.
Proof.
  unfold trimmed, PyStr.strip. intros [H1 H2]%andb_prop.
  apply negb_true_iff in H1, H2.
  now rewrite (lstrip_fixed s H1), (rstrip_fixed s H2).
Qed.

Lemma sub_spaces_fixed s :
  spaced s = true ->
  PyStr.sub_spaces false s = s
  /\ (starts_white s = false -> PyStr.sub_spaces true s = s).
Proof.
  induction s as [|c r IH]; simpl; [now split|].
  intros [Hc Hr]%andb_prop. destruct (IH Hr) as [IH1 IH2].
  destruct (PyStr.is_space c).
  - apply andb_prop in Hc as [Hc1 Hc2].
    apply Ascii.eqb_eq in Hc1. apply negb_true_iff in Hc2. subst c.
    split; [|discriminate]. now rewrite (IH2 Hc2).
  - rewrite IH1. now split.
Qed.

Lemma normalized_fixed s : normalized s = true -> _clean_text s = s.
Proof.
  unfold normalized, _clean_text. intros [Ht Hs]%andb_prop.
  destruct (sub_spaces_fixed s Hs) as [-> _]. now apply strip_fixed.
Qed.

Lemma clean_text_normal t : normalized (_clean_text t) = true.
Proof.
  unfold normalized, _clean_text.
  pose proof (strip_trimmed (PyStr.sub_spaces false t)) as Ht.
  unfold trimmed in Ht. rewrite Ht. simpl.
  apply rstrip_spaced, lstrip_spaced, sub_spaces_spaced.
Qed.

(** X1.  The text [_clean_text] returns is normalized: it neither starts
    nor ends with white space, every white character left in it is a
    plain space, and no two spaces are adjacent. *)
Theorem clean_text_is_normalized t :
  starts_white (_clean_text t) = false
  /\ ends_white (_clean_text t) = false
  /\ spaced (_clean_text t) = true.
Proof.
  pose proof (clean_text_normal t) as H. unfold normalized in H.
  apply andb_prop in H as [[H1 H2]%andb_prop H3].
  apply negb_true_iff in H1, H2. now repeat split.
Qed.

(** X2.  [_clean_text] is idempotent: cleaning a cleaned text changes
    nothing. *)
Theorem clean_text_idempotent t : _clean_text (_clean_text t) = _clean_text t.
Proof. apply normalized_fixed, clean_text_normal. Qed.

Lemma lstrip_length s : (String.length (PyStr.lstrip s) <= String.length s)%nat.
Proof.
  induction s as [|c r IH]; simpl; [lia|].
  destruct (PyStr.is_space c); simpl; lia.
Qed.

Lemma rstrip_length s : (String.length (PyStr.rstrip s) <= String.length s)%nat.
Proof.
  induction s as [|c r IH]; simpl; [lia|].
  destruct (PyStr.rstrip r); [destruct (PyStr.is_space c)|]; simpl in *; lia.
Qed.

Lemma sub_spaces_length t :
  forall in_run,
    (String.length (PyStr.sub_spaces in_run t) <= String.length t)%nat.
Proof.
  induction t as [|c r IH]; intros in_run; simpl; [lia|].
  destruct (PyStr.is_space c); [destruct in_run|]; simpl;
    match goal with |- context [PyStr.sub_spaces ?b r] => specialize (IH b) end; lia.
Qed.

(** X3.  Cleaning never lengthens a text: the [text_length] of a record
    is at most the length of the raw text it was cleaned from. *)
Theorem clean_text_not_longer t : PyStr.len (_clean_text t) <= PyStr.len t.
Proof.
  unfold PyStr.len, _clean_text, PyStr.strip.
  pose proof (rstrip_length (PyStr.lstrip (PyStr.sub_spaces false t))).
  pose proof (lstrip_length (PyStr.sub_spaces false t)).
  pose proof (sub_spaces_length t false). lia.
Qed.

(** *** Texts of elements *)

Lemma starts_white_app a b :
  PyStr.truthy a = true -> starts_white (a ++ b)%string = starts_white a.
Proof. destruct a; simpl; [discriminate|reflexivity]. Qed.

Lemma ends_white_app a b :
  PyStr.truthy b = true -> ends_white (a ++ b)%string = ends_white b.
Proof.
  intros Hb. induction a as [|c a IH]; [reflexivity|].
  change (String c a ++ b)%string with (String c (a ++ b)%string).
  destruct (a ++ b)%string as [|d r] eqn:E.
  - destruct a; [change (b = EmptyString) in E; rewrite E in Hb|]; discriminate.
  - exact IH.
Qed.

Lemma truthy_app_r a b : PyStr.truthy b = true -> PyStr.truthy (a ++ b)%string = true.
Proof. destruct a; simpl; auto. Qed.

(** A list of trimmed, non-empty pieces joined by a plain space (or by
    any separator) is trimmed. *)
Lemma join_trimmed sep l :
  Forall (fun p => trimmed p = true /\ PyStr.truthy p = true) l ->
  trimmed (PyStr.join sep l) = true
  /\ (l <> [] -> PyStr.truthy (PyStr.join sep l) = true).
Proof.
  unfold PyStr.join. induction 1 as [|p l [Hp Hn] Hl IH]; [split; [reflexivity|congruence]|].
  destruct l as [|q l'].
  - simpl. now split.
  - destruct IH as [IHt IHn]. specialize (IHn ltac:(discriminate)).
    change (String.concat sep (p :: q :: l'))
      with (p ++ sep ++ String.concat sep (q :: l'))%string.
    set (rest := String.concat sep (q :: l')) in *. split.
    + unfold trimmed in *. rewrite starts_white_app by exact Hn.
      rewrite ends_white_app by now apply truthy_app_r.
      rewrite ends_white_app by exact IHn.
      apply andb_prop in Hp as [Hp1 _]. apply andb_prop in IHt as [_ Ht2].
      now rewrite Hp1, Ht2.
    + intros _. destruct p; [discriminate|reflexivity].
Qed.

Lemma stripped_strings_pieces types ns :
  Forall (fun p => trimmed p = true /\ PyStr.truthy p = true) (stripped_strings types ns).
Proof.
  unfold stripped_strings. apply List.Forall_forall. intros p Hp.
  apply filter_In in Hp as [Hin Ht]. split; [|exact Ht].
  apply in_flat_map in Hin as (d & _ & Hd).
  destruct d as [cls s|]; [|contradiction].
  destruct (existsb _ _); [|contradiction].
  destruct Hd as [<-|[]]. apply strip_trimmed.
Qed.

Lemma get_text_trimmed el : trimmed (get_text el) = true.
Proof.
  destruct el as [cls s|nm a cs]; unfold get_text.
  - destruct (existsb _ _); [apply strip_trimmed|reflexivity].
  - apply join_trimmed, stripped_strings_pieces.
Qed.

Lemma extract_meta_trimmed soup key by_ : trimmed (_extract_meta soup key by_) = true.
Proof.
  unfold _extract_meta. destruct (find_meta soup by_ key); [|reflexivity].
  destruct (_ !! "content"); [|reflexivity].
  destruct (PyStr.truthy _); [apply strip_trimmed|reflexivity].
Qed.

(** X4.  What [_extract_text] and [_extract_meta] return never starts
    or ends with white space: stripping it again changes nothing.  The
    same holds for the text of any element. *)
Theorem extracted_strings_are_stripped :
  (forall el, PyStr.strip (get_text el) = get_text el)
  /\ (forall css soup selector t,
         _extract_text css soup selector = Returns t -> PyStr.strip t = t)
  /\ (forall soup key by_,
         PyStr.strip (_extract_meta soup key by_) = _extract_meta soup key by_).
Proof.
  split; [|split].
  - intros el. apply strip_fixed, get_text_trimmed.
  - intros css soup selector t. unfold _extract_text.
    destruct (select css selector soup) as [[|el els]|e]; simpl;
      [intros [= <-]; reflexivity|intros [= <-]|discriminate].
    apply strip_fixed, get_text_trimmed.
  - intros soup key by_. apply strip_fixed, extract_meta_trimmed.
Qed.

(** *** The text of a record *)

Section RecordTexts.

Context (BeautifulSoup : string -> node)
        (css : string -> node -> result (list node))
        (urljoin : string -> string -> result string)
        (pdf_page_texts docx_paragraph_texts : list Byte.byte -> result (list string))
        (decode_utf8 : list Byte.byte -> string)
        (world : Type)
        (http_get : string -> Z -> world -> result response * world).

Local Abbreviation html_content := (_extract_html_content BeautifulSoup css urljoin).
Local Abbreviation file_content :=
  (_extract_file_content BeautifulSoup css urljoin pdf_page_texts
     docx_paragraph_texts decode_utf8).

Lemma html_content_normalized html url r :
  html_content html url = Returns r -> normalized_text r.
Proof.
  intros (links & _ & ->)%extract_html_content_returns.
  destruct (page_record_fields (BeautifulSoup html) url links)
    as (_ & _ & _ & _ & Ht & _).
  eexists. split; [exact Ht|apply clean_text_normal].
Qed.

Lemma file_content_normalized data source r :
  file_content data source = Returns r -> normalized_text r.
Proof.
  unfold _extract_file_content, _extract_pdf_text, _extract_docx_text.
  repeat match goal with
         | |- context [if ?b then _ else _] => destruct b
         end.
  - destruct (pdf_page_texts data); simpl; [|discriminate].
    intros [= <-]. eexists. unfold dict; simpl.
    split; [now simplify_map_eq|apply clean_text_normal].
  - destruct (docx_paragraph_texts data); simpl; [|discriminate].
    intros [= <-]. eexists. unfold dict; simpl.
    split; [now simplify_map_eq|apply clean_text_normal].
  - intros [= <-]. eexists. unfold dict; simpl.
    split; [now simplify_map_eq|apply clean_text_normal].
  - intros [= <-]. eexists. unfold dict; simpl.
    split; [now simplify_map_eq|apply clean_text_normal].
  - destruct (html_content (decode_utf8 data) source) as [parsed|] eqn:E;
      simpl; [|discriminate].
    intros [= <-]. destruct (html_content_normalized _ _ _ E) as (t & H1 & H2).
    exists t. split; [|exact H2]. now rewrite lookup_insert_ne.
  - intros [= <-]. exists EmptyString. unfold dict; simpl.
    split; [now simplify_map_eq|reflexivity].
Qed.

(** X5.  The [text] of every record an extractor returns is
    normalized: it neither starts nor ends with white space, and inside
    it white space is single plain spaces only.  This covers the HTML
    extractor, the file dispatcher and a page crawl. *)
Theorem record_text_is_normalized (r : gmap string value) (t : string) :
  extraction_record BeautifulSoup css urljoin pdf_page_texts docx_paragraph_texts
    decode_utf8 world http_get r ->
  r !! "text" = Some (VStr t) ->
  starts_white t = false /\ ends_white t = false /\ spaced t = true.
Proof.
  intros Hr Ht.
  assert (normalized_text r \/ r !! "text" = None) as [(t' & H1 & H2)|Hn].
  { destruct Hr as [html url r H|data source r H|url timeout_sec w r w' H].
    - left. eapply html_content_normalized, H.
    - left. eapply file_content_normalized, H.
    - unfold crawl_url in H. destruct (_download _ _ _ _ _) as [[resp|e] w0]; [|discriminate].
      destruct (negb _ && negb _).
      + right. injection H as <- _. unfold dict; simpl. now simplify_map_eq.
      + left. injection H as H _. eapply html_content_normalized, H. }
  - assert (t = t') as -> by congruence. unfold normalized in H2.
    apply andb_prop in H2 as [[Ha Hb]%andb_prop Hc].
    apply negb_true_iff in Ha, Hb. now repeat split.
  - congruence.
Qed.

End RecordTexts.

(** The theorem at the text file [notes.txt] holding [ a  b ] with a
    line break at its end. *)
Lemma record_text_is_normalized_witness :
  starts_white "a b" = false /\ ends_white "a b" = false /\ spaced "a b" = true.
Proof.
  apply (record_text_is_normalized (table_parser []) strict_css sample_urljoin
           no_document no_document sample_decode unit
           (fun _ _ w => (Raises (Exception "ConnectionError" "offline"), w))
           (dict [("type", VStr "text"); ("source", VStr "notes.txt");
                  ("text", VStr "a b"); ("text_length", VInt 3)])).
  - apply (from_file _ _ _ _ _ _ _ _
             (list_byte_of_string (String " " (String "a" (String " " (String " "
                (String "b" (String " " (String "010" EmptyString))))))))
             "notes.txt").
    reflexivity.
  - unfold dict; simpl. now simplify_map_eq.
Defined.

(** ** Sections of a tool page *)

Lemma section_list_scan_find sibs :
  section_list_scan sibs =
  match List.find is_stop sibs with
  | Some s => Some (if name_in headings s then [] else list_items s)
  | None => None
  end.
Proof.
  induction sibs as [|sib rest IH]; simpl; [reflexivity|].
  unfold is_stop at 1. destruct (name_in headings sib) eqn:Hh; simpl;
    [now rewrite Hh|].
  destruct (name_in ["ul"; "ol"] sib); [now rewrite Hh|exact IH].
Qed.

Lemma existsb_find {A} (f : A -> bool) l :
  existsb f l = match List.find f l with Some _ => true | None => false end.
Proof.
  induction l as [|x l IH]; simpl; [reflexivity|]. now destruct (f x).
Qed.

Lemma section_list_loop_find needle hs :
  section_list_loop needle hs =
  match List.find (decides needle) hs with
  | Some (_, sibs) =>
      match List.find is_stop sibs with
      | Some s => if name_in headings s then [] else list_items s
      | None => []
      end
  | None => []
  end.
Proof.
  induction hs as [|[h sibs] rest IH]; simpl; [reflexivity|].
  unfold decides at 1. simpl.
  destruct (PyStr.startswith _ _); simpl; [|exact IH].
  rewrite section_list_scan_find, existsb_find.
  destruct (List.find is_stop sibs) eqn:E; simpl; [now rewrite E|exact IH].
Qed.

Lemma section_text_scan_parts sibs parts :
  section_text_scan sibs parts = parts ++ flat_map narrative_part (until_heading sibs).
Proof.
  revert parts. induction sibs as [|sib rest IH]; intros parts; simpl.
  - now rewrite app_nil_r.
  - destruct (name_in headings sib); simpl; [now rewrite app_nil_r|].
    rewrite IH, app_assoc. f_equal. unfold narrative_part, list_items.
    destruct (name_in ["p"] sib), (name_in ["ul"; "ol"] sib),
      (PyStr.truthy (get_text sib)),
      (List.filter PyStr.truthy (List.map get_text (find_all ["li"] sib)));
      simpl; rewrite ?app_nil_r, <- ?app_assoc; reflexivity.
Qed.

Lemma section_text_loop_find needle hs :
  section_text_loop needle hs =
  match List.find (fun p => PyStr.startswith needle (PyStr.lower (get_text (fst p)))) hs with
  | Some (_, sibs) =>
      PyStr.strip (PyStr.join " " (flat_map narrative_part (until_heading sibs)))
  | None => EmptyString
  end.
Proof.
  induction hs as [|[h sibs] rest IH]; simpl; [reflexivity|].
  destruct (PyStr.startswith _ _); simpl; [|exact IH].
  now rewrite section_text_scan_parts.
Qed.

Lemma find_decides_none needle hs :
  List.find (fun p => PyStr.startswith needle (PyStr.lower (get_text (fst p)))) hs = None ->
  List.find (decides needle) hs = None.
Proof.
  induction hs as [|p rest IH]; simpl; [reflexivity|].
  unfold decides at 1. destruct (PyStr.startswith _ _); simpl; [discriminate|exact IH].
Qed.

(** X6.  A section whose label no heading of the page starts with is
    empty, not an error: the list rule gives the empty list and the
    narrative rule the empty string. *)
Theorem absent_section_is_empty soup title :
  first_heading (PyStr.lower (PyStr.strip title)) soup = None ->
  _extract_section_list soup title = []
  /\ _extract_section_text soup title = EmptyString.
Proof.
  unfold first_heading, _extract_section_list, _extract_section_text. intros H.
  rewrite section_list_loop_find, section_text_loop_find, H.
  now rewrite (find_decides_none _ _ H).
Qed.

(** The theorem on the page without sections, for the label [Pros]. *)
Lemma absent_section_is_empty_witness :
  _extract_section_list bare_soup "Pros" = []
  /\ _extract_section_text bare_soup "Pros" = EmptyString.
Proof. apply absent_section_is_empty. reflexivity. Defined.

(** X7.  The list rule: the result comes from the first heading whose
    text starts with the label, case apart, and that is followed by a
    heading or a list among its siblings; it is empty when a heading
    comes first, and the non-empty item texts of the first list
    otherwise.  A matching heading followed by neither is passed over.
    No item of the result is empty. *)
Theorem section_list_takes_first_list soup title :
  _extract_section_list soup title =
    match List.find (decides (PyStr.lower (PyStr.strip title))) (heading_entries soup) with
    | Some (_, sibs) =>
        match List.find is_stop sibs with
        | Some s => if name_in headings s then [] else list_items s
        | None => []
        end
    | None => []
    end
  /\ Forall (fun item => PyStr.truthy item = true) (_extract_section_list soup title).
Proof.
  unfold _extract_section_list. rewrite section_list_loop_find. split; [reflexivity|].
  destruct (List.find (decides _) _) as [[h sibs]|]; [|constructor].
  destruct (List.find is_stop sibs) as [s|]; [|constructor].
  destruct (name_in headings s); [constructor|].
  apply List.Forall_forall. intros item Hi. unfold list_items in Hi.
  now apply filter_In in Hi.
Qed.

(** X8.  The narrative rule: the result is anchored at the first heading
    whose text starts with the label, case apart; every sibling up to
    the next h2, h3 or h4 heading, whatever its tier, adds its text when
    it is a paragraph and its items joined by [; ] when it is a list;
    the parts are joined by single spaces and the whole is stripped. *)
Theorem section_text_joins_until_heading soup title :
  _extract_section_text soup title =
    match first_heading (PyStr.lower (PyStr.strip title)) soup with
    | Some (_, sibs) =>
        PyStr.strip (PyStr.join " " (flat_map narrative_part (until_heading sibs)))
    | None => EmptyString
    end.
Proof.
  unfold _extract_section_text, first_heading. apply section_text_loop_find.
Qed.

(** ** Removed elements *)

Lemma node_nested_ind (P : node -> Prop) :
  (forall cls s, P (Str cls s)) ->
  (forall nm a cs, Forall P cs -> P (Tag nm a cs)) ->
  forall n, P n.
Proof.
  intros HS HT. fix IH 1. intros [cls s|nm a cs]; [apply HS|].
  apply HT. induction cs as [|c cs IHcs]; constructor; [apply IH|exact IHcs].
Qed.

Lemma descendants_tag nm a cs :
  descendants (Tag nm a cs) = flat_map (fun c => c :: descendants c) cs.
Proof.
  simpl. induction cs as [|c cs IH]; [reflexivity|].
  cbn [flat_map]. now rewrite IH.
Qed.

Lemma decompose_tag names nm a cs :
  decompose names (Tag nm a cs)
  = Tag nm a (List.map (decompose names)
                (List.filter (fun c => negb (name_in names c)) cs)).
Proof.
  simpl. f_equal. induction cs as [|c cs IH]; [reflexivity|].
  cbn [List.filter]. destruct (name_in names c); simpl; now rewrite IH.
Qed.

Lemma decompose_name names n : name_of (decompose names n) = name_of n.
Proof. now destruct n. Qed.

Lemma tags_with_siblings_tag nm a cs :
  tags_with_siblings (Tag nm a cs)
  = (fix go (l : list node) : list (node * list node) :=
       match l with
       | [] => []
       | c :: r =>
           (if is_tag c then [(c, List.filter is_tag r)] else [])
             ++ tags_with_siblings c ++ go r
       end) cs.
Proof. reflexivity. Qed.

Lemma tags_are_descendants n :
  forall p, In p (tags_with_siblings n) -> In (fst p) (descendants n).
Proof.
  induction n as [cls s|nm a cs IH] using node_nested_ind; [intros p []|].
  rewrite tags_with_siblings_tag, descendants_tag.
  induction IH as [|c cs Hc _ IHcs]; [intros p []|].
  intros p Hp. cbn [flat_map]. apply in_app_or in Hp as [Hp|Hp].
  - destruct (is_tag c); [|contradiction]. destruct Hp as [<-|[]]. now left.
  - apply in_app_or in Hp as [Hp|Hp].
    + right. apply in_or_app. left. now apply Hc.
    + right. apply in_or_app. right. now apply IHcs.
Qed.

Lemma decompose_descendants names n :
  Forall (fun d => name_in names d = false) (descendants (decompose names n)).
Proof.
  induction n as [cls s|nm a cs IH] using node_nested_ind; [constructor|].
  rewrite decompose_tag, descendants_tag.
  induction IH as [|c cs Hc _ IHcs]; [constructor|].
  cbn [List.filter]. destruct (name_in names c) eqn:E; [exact IHcs|].
  cbn [negb List.map flat_map]. constructor; [|apply Forall_app; now split].
  unfold name_in in *. now rewrite decompose_name.
Qed.

Lemma filter_none {A} (f : A -> bool) l :
  (forall x, In x l -> f x = false) -> List.filter f l = [].
Proof.
  induction l as [|x l IH]; intros H; simpl; [reflexivity|].
  rewrite (H x) by now left. apply IH. intros y Hy. apply H. now right.
Qed.

(** X9.  Once the [script], [style], [noscript] and [iframe] elements
    are decomposed, none is left at any depth of the tree the text and
    the links are read from: the tree has no descendant of such a name
    and a search for them finds nothing. *)
Theorem pruned_tree_has_no_removed_element names soup :
  Forall (fun d => name_in names d = false) (descendants (decompose names soup))
  /\ find_all names (decompose names soup) = [].
Proof.
  split; [apply decompose_descendants|].
  unfold find_all. rewrite filter_none; [reflexivity|]. intros p Hp.
  apply tags_are_descendants in Hp.
  pose proof (decompose_descendants names soup) as H.
  rewrite List.Forall_forall in H. exact (H _ Hp).
Qed.

(** ** The file dispatcher *)

Lemma split_head_app c a b :
  PyStr.split_head c (a ++ String c b)%string = PyStr.split_head c a.
Proof.
  induction a as [|d a IH].
  - change (PyStr.split_head c (String c b) = EmptyString).
    simpl. now rewrite Ascii.eqb_refl.
  - change (PyStr.split_head c (String d (a ++ String c b)%string)
            = PyStr.split_head c (String d a)).
    simpl. destruct (Ascii.eqb d c); [reflexivity|now rewrite IH].
Qed.

Lemma lower_app a b : PyStr.lower (a ++ b)%string = (PyStr.lower a ++ PyStr.lower b)%string.
Proof.
  induction a as [|d a IH]; [reflexivity|].
  change (PyStr.lower (String d (a ++ b)%string)
          = String (PyStr.lower_char d) (PyStr.lower a ++ PyStr.lower b)%string).
  simpl. now rewrite IH.
Qed.

Lemma file_path_query source query :
  file_path (source ++ String "?" query)%string = file_path source.
Proof.
  unfold file_path. rewrite lower_app.
  change (PyStr.lower (String "?" query)) with (String "?" (PyStr.lower query)).
  apply split_head_app.
Qed.

Section Files.

Context (BeautifulSoup : string -> node)
        (css : string -> node -> result (list node))
        (urljoin : string -> string -> result string)
        (pdf_page_texts docx_paragraph_texts : list Byte.byte -> result (list string))
        (decode_utf8 : list Byte.byte -> string).

Local Abbreviation html_content := (_extract_html_content BeautifulSoup css urljoin).
Local Abbreviation file_content :=
  (_extract_file_content BeautifulSoup css urljoin pdf_page_texts
     docx_paragraph_texts decode_utf8).

(** X10.  Every record the file dispatcher returns has one of six
    types and carries its origin: an [html-file] record under the key
    [url], with no [source] key, and a record of any other type under
    the key [source], with no [url] key. *)
Theorem file_record_type_and_origin data source r :
  _extract_file_content BeautifulSoup css urljoin pdf_page_texts
    docx_paragraph_texts decode_utf8 data source = Returns r ->
  (r !! "type" = Some (VStr "html-file")
   /\ r !! "url" = Some (VStr source) /\ r !! "source" = None)
  \/ (exists ty,
         In ty ["pdf"; "docx"; "markdown"; "text"; "binary-or-unknown"]
         /\ r !! "type" = Some (VStr ty)
         /\ r !! "source" = Some (VStr source) /\ r !! "url" = None).
Proof.
  unfold _extract_file_content, _extract_pdf_text, _extract_docx_text.
  repeat match goal with
         | |- context [if ?b then _ else _] => destruct b
         end.
  - destruct (pdf_page_texts data); simpl; [|discriminate].
    intros [= <-]. right. exists "pdf". unfold dict; simpl.
    repeat split; simplify_map_eq; auto.
  - destruct (docx_paragraph_texts data); simpl; [|discriminate].
    intros [= <-]. right. exists "docx". unfold dict; simpl.
    repeat split; simplify_map_eq; auto.
  - intros [= <-]. right. exists "markdown". unfold dict; simpl.
    repeat split; simplify_map_eq; auto.
  - intros [= <-]. right. exists "text". unfold dict; simpl.
    repeat split; simplify_map_eq; auto.
  - destruct (_extract_html_content _ _ _ _ _) as [parsed|] eqn:E; simpl; [|discriminate].
    intros [= <-]. apply extract_html_content_returns in E as (links & _ & ->).
    destruct (page_record_fields (BeautifulSoup (decode_utf8 data)) source links)
      as (_ & Hu & _ & _ & _ & _ & _ & Hs).
    left. rewrite lookup_insert_eq, !lookup_insert_ne by done. auto.
  - intros [= <-]. right. exists "binary-or-unknown". unfold dict; simpl.
    repeat split; simplify_map_eq; auto 10.
Qed.


(** X12.  A query string does not change the dispatch: when the
    dispatcher returns a record for [source?query] and one for [source],
    the two have the same type, text and text length. *)
Theorem file_content_ignores_query data source query r1 r2 key :
  _extract_file_content BeautifulSoup css urljoin pdf_page_texts
    docx_paragraph_texts decode_utf8 data (source ++ String "?" query)%string
  = Returns r1 ->
  _extract_file_content BeautifulSoup css urljoin pdf_page_texts
    docx_paragraph_texts decode_utf8 data source = Returns r2 ->
  In key ["type"; "text"; "text_length"] ->
  r1 !! key = r2 !! key.
Proof.
  unfold _extract_file_content.
  fold (file_path (source ++ String "?" query)%string). fold (file_path source).
  rewrite file_path_query. unfold _extract_pdf_text, _extract_docx_text.
  intros H1 H2 Hkey.
  repeat match goal with
         | H : context [if ?b then _ else _] |- _ => destruct b
         end.
  - destruct (pdf_page_texts data); simpl in *; [|discriminate].
    injection H1 as <-. injection H2 as <-.
    destruct Hkey as [<-|[<-|[<-|[]]]]; unfold dict; simpl; now simplify_map_eq.
  - destruct (docx_paragraph_texts data); simpl in *; [|discriminate].
    injection H1 as <-. injection H2 as <-.
    destruct Hkey as [<-|[<-|[<-|[]]]]; unfold dict; simpl; now simplify_map_eq.
  - injection H1 as <-. injection H2 as <-.
    destruct Hkey as [<-|[<-|[<-|[]]]]; unfold dict; simpl; now simplify_map_eq.
  - injection H1 as <-. injection H2 as <-.
    destruct Hkey as [<-|[<-|[<-|[]]]]; unfold dict; simpl; now simplify_map_eq.
  - destruct (_extract_html_content _ _ _ _ (source ++ _)%string) as [p1|] eqn:E1;
      simpl in H1; [|discriminate].
    destruct (_extract_html_content _ _ _ _ source) as [p2|] eqn:E2;
      simpl in H2; [|discriminate].
    injection H1 as <-. injection H2 as <-.
    apply extract_html_content_returns in E1 as (links1 & _ & ->).
    apply extract_html_content_returns in E2 as (links2 & _ & ->).
    destruct (page_record_fields (BeautifulSoup (decode_utf8 data))
                (source ++ String "?" query)%string links1)
      as (_ & _ & _ & _ & Ht1 & Hl1 & _).
    destruct (page_record_fields (BeautifulSoup (decode_utf8 data)) source links2)
      as (_ & _ & _ & _ & Ht2 & Hl2 & _).
    destruct Hkey as [<-|[<-|[<-|[]]]].
    + now rewrite !lookup_insert_eq.
    + rewrite !lookup_insert_ne by done. now rewrite Ht1, Ht2.
    + rewrite !lookup_insert_ne by done. now rewrite Hl1, Hl2.
  - injection H1 as <-. injection H2 as <-.
    destruct Hkey as [<-|[<-|[<-|[]]]]; unfold dict; simpl; now simplify_map_eq.
Qed.

(** X13.  Blank pages do not count: two PDF documents whose pages
    differ by one page that is empty or white space only give the same
    text. *)
Theorem pdf_text_skips_blank_pages data1 data2 before blank after :
  pdf_page_texts data1 = Returns (before ++ blank :: after) ->
  pdf_page_texts data2 = Returns (before ++ after) ->
  PyStr.strip blank = EmptyString ->
  _extract_pdf_text pdf_page_texts data1 = _extract_pdf_text pdf_page_texts data2.
Proof.
  intros H1 H2 Hb. unfold _extract_pdf_text. rewrite H1, H2. simpl.
  rewrite !List.filter_app. simpl. now rewrite Hb.
Qed.

End Files.

(** The theorem at the local file [notes.txt]. *)
Lemma file_record_type_and_origin_witness :
  let r := dict [("type", VStr "text"); ("source", VStr "notes.txt");
                 ("text", VStr "a b"); ("text_length", VInt 3)] in
  (r !! "type" = Some (VStr "html-file")
   /\ r !! "url" = Some (VStr "notes.txt") /\ r !! "source" = None)
  \/ (exists ty,
         In ty ["pdf"; "docx"; "markdown"; "text"; "binary-or-unknown"]
         /\ r !! "type" = Some (VStr ty)
         /\ r !! "source" = Some (VStr "notes.txt") /\ r !! "url" = None).
Proof.
  apply (file_record_type_and_origin (table_parser []) strict_css sample_urljoin
           no_document no_document sample_decode (list_byte_of_string "a  b")).
  reflexivity.
Defined.


(** The theorem at [a.md?raw=1] and the key [type]. *)
Lemma file_content_ignores_query_witness :
  dict [("type", VStr "markdown"); ("source", VStr "a.md?raw=1");
        ("text", VStr "# a"); ("text_length", VInt 3)] !! "type"
  = dict [("type", VStr "markdown"); ("source", VStr "a.md");
          ("text", VStr "# a"); ("text_length", VInt 3)] !! "type".
Proof.
  apply (file_content_ignores_query (table_parser []) strict_css sample_urljoin
           no_document no_document sample_decode (list_byte_of_string "# a")
           "a.md" "raw=1"); [reflexivity|reflexivity|now left].
Defined.

(** The theorem at a three-page document whose second page is blank. *)
Lemma pdf_text_skips_blank_pages_witness :
  _extract_pdf_text (table_reader [("three", ["one"; " "; "two"]); ("two", ["one"; "two"])])
    (list_byte_of_string "three")
  = _extract_pdf_text (table_reader [("three", ["one"; " "; "two"]); ("two", ["one"; "two"])])
      (list_byte_of_string "two").
Proof.
  apply (pdf_text_skips_blank_pages
           (table_reader [("three", ["one"; " "; "two"]); ("two", ["one"; "two"])])
           (list_byte_of_string "three") (list_byte_of_string "two") ["one"] " " ["two"]);
    reflexivity.
Defined.

(** ** Crawling a page or a file *)

Section Crawls.

Context (BeautifulSoup : string -> node)
        (css : string -> node -> result (list node))
        (urljoin : string -> string -> result string)
        (pdf_page_texts docx_paragraph_texts : list Byte.byte -> result (list string))
        (decode_utf8 : list Byte.byte -> string)
        (world : Type)
        (http_get : string -> Z -> world -> result response * world)
        (url_scheme : string -> result string)
        (path_exists : string -> world -> bool)
        (read_file : string -> world -> result (list Byte.byte) * world).


(** X15.  Every record [crawl_file] returns, from a URL or from a local
    file, has a [text_length] equal to the length of its [text], and its
    [text] is normalized. *)
Theorem crawl_file_record_is_consistent source timeout_sec w r w' :
  crawl_file BeautifulSoup css urljoin pdf_page_texts docx_paragraph_texts decode_utf8
    world http_get url_scheme path_exists read_file source timeout_sec w
  = (Returns r, w') ->
  consistent_length r /\ normalized_text r.
Proof.
  unfold crawl_file. intros H.
  assert (exists data,
             _extract_file_content BeautifulSoup css urljoin pdf_page_texts
               docx_paragraph_texts decode_utf8 data source = Returns r) as [data Hd].
  { destruct (url_scheme source) as [scheme|e]; [|discriminate].
    destruct (existsb _ _).
    - destruct (_download _ _ _ _ _) as [[resp|e] w0]; [|discriminate].
      injection H as H _. eauto.
    - destruct (negb _); [discriminate|].
      destruct (read_file source w) as [[data|e] w0]; [|discriminate].
      injection H as H _. eauto. }
  split.
  - eapply file_content_consistent, Hd.
  - eapply file_content_normalized, Hd.
Qed.

End Crawls.

(** The theorem at the local file [notes.txt]. *)
Lemma crawl_file_record_is_consistent_witness :
  consistent_length (dict [("type", VStr "text"); ("source", VStr "notes.txt");
                           ("text", VStr "a b"); ("text_length", VInt 3)])
  /\ normalized_text (dict [("type", VStr "text"); ("source", VStr "notes.txt");
                            ("text", VStr "a b"); ("text_length", VInt 3)]).
Proof.
  apply (crawl_file_record_is_consistent (table_parser []) strict_css sample_urljoin
           no_document no_document sample_decode unit offline sample_scheme
           notes_exists notes_read "notes.txt" 30 tt _ tt).
  reflexivity.
Defined.

(** ** Structured extraction as a whole *)



Section Structured.

Context (BeautifulSoup : string -> node)
        (css : string -> node -> result (list node))
        (world : Type)
        (http_get : string -> Z -> world -> result response * world)
        (json_loads : string -> result json).



End Structured.



(** ** The Futurepedia tools *)

Lemma or_empty_strip_stripped v s :
  or_empty_strip v = Returns s -> PyStr.strip s = s.
Proof.
  unfold or_empty_strip. destruct (json_truthy v).
  - destruct v; try discriminate. intros [= <-]. apply strip_fixed, strip_trimmed.
  - now intros [= <-].
Qed.

Lemma meta_of_tool_returns tool meta :
  meta_of_tool tool = Returns meta ->
  exists slug name short_description website_url,
    meta = <["website_url" := website_url]>
             (<["short_description" := short_description]>
                (<["name" := name]> (<["slug" := slug]> ∅)))
    /\ PyStr.truthy slug = true
    /\ PyStr.strip slug = slug
    /\ PyStr.strip name = name
    /\ PyStr.strip short_description = short_description
    /\ PyStr.strip website_url = website_url.
Proof.
  unfold meta_of_tool. destruct tool as [| | | | |fields]; try discriminate.
  set (slug_result := match json_get fields "slug" with
                      | JObject slug_fields => or_empty_strip (json_get slug_fields "current")
                      | JString s => Returns (PyStr.strip s)
                      | _ => Returns EmptyString
                      end).
  assert (forall slug, slug_result = Returns slug -> PyStr.strip slug = slug) as Hslug.
  { intros slug. unfold slug_result.
    destruct (json_get fields "slug"); try (now intros [= <-]).
    - intros [= <-]. apply strip_fixed, strip_trimmed.
    - apply or_empty_strip_stripped. }
  destruct slug_result as [slug|e]; simpl; [|discriminate].
  destruct (PyStr.truthy slug) eqn:Ht; simpl; [|discriminate].
  destruct (or_empty_strip (json_get fields "toolName")) as [name|] eqn:E1;
    simpl; [|discriminate].
  destruct (or_empty_strip (json_get fields "toolShortDescription"))
    as [short_description|] eqn:E2; simpl; [|discriminate].
  destruct (or_empty_strip (json_get fields "websiteUrl")) as [website_url|] eqn:E3;
    simpl; [|discriminate].
  intros [= <-]. exists slug, name, short_description, website_url.
  repeat split; eauto using or_empty_strip_stripped.
Qed.

Lemma parse_tool_page_record BeautifulSoup css html fallback url r :
  _parse_tool_page BeautifulSoup css html fallback url = Returns r ->
  r !! "url" = Some (VStr url)
  /\ exists description,
       r !! "description" = Some (VStr description)
       /\ PyStr.truthy description = true.
Proof.
  unfold _parse_tool_page.
  rewrite extract_text_type_selector by reflexivity.
  change (mbind ?k (Returns ?a)) with (k a). cbv beta zeta.
  destruct (PyStr.truthy (PyStr.or_else _ _)) eqn:E; simpl; [|discriminate].
  intros [= <-]. unfold dict; simpl. split; [now simplify_map_eq|].
  eexists. split; [now simplify_map_eq|exact E].
Qed.

Section FuturepediaFacts.

Context (BeautifulSoup : string -> node)
        (css : string -> node -> result (list node))
        (world : Type)
        (http_get : string -> Z -> world -> result response * world)
        (http_post : string -> json -> Z -> world -> result response * world)
        (response_json : response -> result json)
        (randbelow : nat -> world -> nat * world).

Lemma fetch_random_meta_tool w meta w' :
  _fetch_random_meta world http_post response_json randbelow w = (Returns meta, w') ->
  exists tool, meta_of_tool tool = Returns meta.
Proof.
  unfold _fetch_random_meta.
  destruct (http_post _ _ _ _) as [[r|e] w1]; [|discriminate].
  destruct (_ && _); [discriminate|].
  destruct (response_json r) as [[| | | | |data]|e]; try discriminate.
  destruct (negb _); [discriminate|].
  destruct (json_get data "data") as [| | |s|tools|fields]; try discriminate.
  - destruct (randbelow _ _); discriminate.
  - destruct (randbelow _ _) as [i w2].
    destruct (tools !! i) as [tool|]; [|discriminate].
    intros [= H _]. eauto.
  - destruct (randbelow _ _); discriminate.
Qed.

(** X18.  What [_fetch_random_meta] returns has a slug that is not
    empty, and its slug, name, short description and website URL are all
    stripped of surrounding white space; a tool whose slug is missing or
    blank makes it raise instead. *)
Theorem fetch_random_meta_has_slug w meta w' :
  _fetch_random_meta world http_post response_json randbelow w = (Returns meta, w') ->
  (exists slug, meta !! "slug" = Some slug /\ PyStr.truthy slug = true)
  /\ (forall key, In key ["slug"; "name"; "short_description"; "website_url"] ->
        exists v, meta !! key = Some v /\ PyStr.strip v = v).
Proof.
  intros H. destruct (fetch_random_meta_tool _ _ _ H) as [tool Ht].
  destruct (meta_of_tool_returns _ _ Ht)
    as (slug & name & sd & wu & -> & Hs & H1 & H2 & H3 & H4).
  split.
  - exists slug. split; [now simplify_map_eq|exact Hs].
  - intros key [<-|[<-|[<-|[<-|[]]]]]; eexists; (split; [now simplify_map_eq|]);
      assumption.
Qed.

Lemma fetch_one_tool_record w r w' :
  _fetch_one BeautifulSoup css world http_get http_post response_json randbelow w
  = (Returns r, w') ->
  tool_record r.
Proof.
  unfold _fetch_one.
  destruct (_fetch_random_meta _ _ _ _ _) as [[meta|e] w1] eqn:Hm; [|discriminate].
  destruct (_download _ _ _ _ _) as [[resp|e] w2]; [|discriminate].
  intros [= H _]. apply parse_tool_page_record in H as (Hu & d & Hd & Ht).
  destruct (fetch_random_meta_tool _ _ _ Hm) as [tool Htool].
  destruct (meta_of_tool_returns _ _ Htool) as (slug & ? & ? & ? & -> & Hs & _).
  exists slug, d. split; [exact Hs|]. split; [|now split].
  rewrite Hu. unfold get_default. now simplify_map_eq.
Qed.

(** X19.  Every record the random-tool operation returns is the record
    of a tool page: its URL is the tool base URL followed by a non-empty
    slug, and its description is not empty. *)
Theorem random_tool_is_tool_record w r w' :
  futurepedia_random_tool BeautifulSoup css world http_get http_post response_json
    randbelow w = (Returns r, w') ->
  tool_record r.
Proof. unfold futurepedia_random_tool. apply fetch_one_tool_record. Qed.

Lemma fetch_tools_length n :
  forall w tools w',
    fetch_tools BeautifulSoup css world http_get http_post response_json randbelow n w
    = (Returns tools, w') ->
    length tools = n /\ Forall tool_record tools.
Proof.
  induction n as [|k IH]; intros w tools w'; simpl.
  - intros [= <- _]. split; [reflexivity|constructor].
  - destruct (_fetch_one _ _ _ _ _ _ _ w) as [[tool|e] w1] eqn:E1; [|discriminate].
    destruct (fetch_tools _ _ _ _ _ _ _ k w1) as [[rest|e] w2] eqn:E2; [|discriminate].
    intros [= <- _]. destruct (IH _ _ _ E2) as [Hl Hf]. split; [simpl; lia|].
    constructor; [eapply fetch_one_tool_record, E1|exact Hf].
Qed.

(** X20.  When the several-tools operation returns, it returns exactly
    [count] records with [count] clamped to 1..10, so never fewer than
    one and never more than ten, and each is the record of a tool page.
    A fetch that fails makes the whole operation raise: there is no
    partial list. *)
Theorem futurepedia_tools_count count w tools w' :
  futurepedia_tools BeautifulSoup css world http_get http_post response_json
    randbelow count w = (Returns tools, w') ->
  Z.of_nat (length tools) = Z.max 1 (Z.min 10 count)
  /\ (1 <= length tools <= 10)%nat
  /\ Forall tool_record tools.
Proof.
  unfold futurepedia_tools. intros H.
  apply fetch_tools_length in H as [Hl Hf]. repeat split; try exact Hf; lia.
Qed.

End FuturepediaFacts.

(** The theorem on the sample search answer. *)
Lemma fetch_random_meta_has_slug_witness :
  let meta : gmap string string :=
    <["website_url" := "https://bare.example"]>
      (<["short_description" := EmptyString]>
         (<["name" := "Bare"]> (<["slug" := "bare"]> ∅))) in
  (exists slug, meta !! "slug" = Some slug /\ PyStr.truthy slug = true)
  /\ (forall key, In key ["slug"; "name"; "short_description"; "website_url"] ->
        exists v, meta !! key = Some v /\ PyStr.strip v = v).
Proof.
  apply (fetch_random_meta_has_slug unit
           (fun _ _ _ w => (Returns search_response, w))
           (fun _ => Returns search_answer) first_index tt _ tt).
  reflexivity.
Defined.

(** The theorem on the sample search answer and tool page. *)
Lemma random_tool_is_tool_record_witness : tool_record bare_tool_record.
Proof.
  apply (random_tool_is_tool_record (table_parser [(bare_page, bare_soup)]) strict_css
           unit (answer bare_response)
           (fun _ _ _ w => (Returns search_response, w))
           (fun _ => Returns search_answer) first_index tt bare_tool_record tt).
  vm_compute. reflexivity.
Defined.

(** The theorem for a count of zero, which fetches one tool. *)
Lemma futurepedia_tools_count_witness :
  Z.of_nat (length [bare_tool_record]) = Z.max 1 (Z.min 10 0)
  /\ (1 <= length [bare_tool_record] <= 10)%nat
  /\ Forall tool_record [bare_tool_record].
Proof.
  apply (futurepedia_tools_count (table_parser [(bare_page, bare_soup)]) strict_css
           unit (answer bare_response)
           (fun _ _ _ w => (Returns search_response, w))
           (fun _ => Returns search_answer) first_index 0 tt [bare_tool_record] tt).
  vm_compute. reflexivity.
Defined.
